(** * Quarter Change Highlighter: the row comparator of [Compare.py]

    A shallow embedding of the comparison engine of [Compare.py]
    ([normalize_colname], [to_str], [build_lookup],
    [get_headers_for_letters], [find_matching_headers_in_q1],
    [apply_word_diff], [highlight_q2_changes], and the part of
    [App.run_compare] that prepares the call) and the properties the
    specification states about it, followed by further properties read off
    the code.

    Modelling conventions.
    - A Python [str] is a [string]; each [ascii] stands for one code point
      below 256, so the development covers text of the Latin-1 range.
    - A Python [dict] is a [gmap]; a pandas row ([Series]) is a [gmap] from
      column label to value, where the value [None] is NaN.
    - The openpyxl worksheet is a [gmap] from (row, column) to cells;
      [ws.cell(row, column)] creates the cell when it is absent, and
      [max_row] / [max_column] are computed from the cells present.
    - Exceptions are values of [exn]; fallible code lives in [result]. *)

From Stdlib Require Import Ascii String NArith.
From stdpp Require Import base option list gmap strings fin_maps.

Local Open Scope string_scope.

(** ** Python strings *)

Module Py.

Definition ord (c : ascii) : N := N_of_ascii c.

(** [str.isspace] on one code point below 256; also what [\s] matches in a
    [str] pattern and what [str.split()] and [str.strip()] take as
    whitespace. *)
Definition isspace (c : ascii) : bool :=
  let n := ord c in
  ((9 <=? n) && (n <=? 13) || (28 <=? n) && (n <=? 32)
   || (n =? 133) || (n =? 160))%N.

(** [str.lower] on one code point below 256. *)
Definition lower_char (c : ascii) : ascii :=
  let n := ord c in
  if ((65 <=? n) && (n <=? 90)
      || (192 <=? n) && (n <=? 222) && negb (n =? 215))%N
  then ascii_of_N (n + 32) else c.

Fixpoint lower (s : string) : string :=
  match s with
  | "" => ""
  | String c s' => String (lower_char c) (lower s')
  end.

(** [s.lstrip(chars)] and [s.rstrip(chars)] for the set of characters
    recognised by [p]. *)
Fixpoint lstrip_by (p : ascii → bool) (s : string) : string :=
  match s with
  | "" => ""
  | String c s' => if p c then lstrip_by p s' else s
  end.

Fixpoint rstrip_by (p : ascii → bool) (s : string) : string :=
  match s with
  | "" => ""
  | String c s' =>
      match rstrip_by p s' with
      | "" => if p c then "" else String c ""
      | t => String c t
      end
  end.

Definition strip_by (p : ascii → bool) (s : string) : string :=
  rstrip_by p (lstrip_by p s).

(** [s.strip()] *)
Definition strip : string → string := strip_by isspace.

(** [s.split()]: the maximal runs of non-whitespace characters. *)
Fixpoint split (s : string) : list string :=
  match s with
  | "" => []
  | String c s' =>
      if isspace c then split s'
      else match split s' with
           | t :: ts =>
               match s' with
               | String c' _ =>
                   if isspace c' then String c "" :: t :: ts
                   else String c t :: ts
               | "" => [String c ""]
               end
           | [] => [String c ""]
           end
  end.

(** [re.sub(p+, rep, s)] for a one-character class [p]: every maximal run
    of characters of the class is replaced by [rep]. *)
Fixpoint sub_runs (p : ascii → bool) (rep : string) (s : string) : string :=
  match s with
  | "" => ""
  | String c s' =>
      if p c then
        match s' with
        | String c' _ => if p c' then sub_runs p rep s'
                         else rep ++ sub_runs p rep s'
        | "" => rep
        end
      else String c (sub_runs p rep s')
  end.

(** [sep.join(l)] *)
Fixpoint join (sep : string) (l : list string) : string :=
  match l with
  | [] => ""
  | [t] => t
  | t :: ts => t ++ sep ++ join sep ts
  end.

(** [str.upper], which maps U+00DF to two letters; the other code points
    below 256 whose upper case lies above 255 are kept (they stay outside
    A-Z either way). *)
Definition upper_char (c : ascii) : string :=
  let n := ord c in
  if (n =? 223)%N then "SS"
  else if ((97 <=? n) && (n <=? 122)
           || (224 <=? n) && (n <=? 254) && negb (n =? 247))%N
  then String (ascii_of_N (n - 32)) ""
  else String c "".

Fixpoint upper (s : string) : string :=
  match s with
  | "" => ""
  | String c s' => upper_char c ++ upper s'
  end.

End Py.

(** ** Exceptions *)

Inductive exn :=
  | ValueError (msg : string)
  | RuntimeError (msg : string).

Inductive result (A : Type) :=
  | Ok (a : A)
  | Raise (e : exn).
Arguments Ok {A} a.
Arguments Raise {A} e.

Global Instance result_ret : MRet result := λ A, @Ok A.
Global Instance result_bind : MBind result := λ A B f m,
  match m with
  | Ok a => f a
  | Raise e => Raise e
  end.

(** A [for] loop whose body may raise. *)
Fixpoint for_each {A S : Type} (body : S → A → result S) (l : list A) (s : S)
    : result S :=
  match l with
  | [] => Ok s
  | x :: l' => s' ← body s x; for_each body l' s'
  end.

(** ** Data model *)

(** A pandas row: column label to value; [None] is NaN. Sheets are read
    with [dtype=str], so every other value is a [str]. *)
Abbreviation Series := (gmap string (option string)).

Record DataFrame := {
  columns : list string;
  rows : list Series;
}.

(** [InlineFont()] and [InlineFont(color="FFFF0000")] *)
Inductive InlineFont := font_default | font_red.

Record TextBlock := { font : InlineFont; text : string }.

Abbreviation CellRichText := (list TextBlock).

Inductive cell_value :=
  | VNone
  | VStr (s : string)
  | VRich (rt : CellRichText).

Record PatternFill := {
  fill_type : option string;
  start_color : string;
  end_color : string;
}.

Record Cell := { value : cell_value; fill : PatternFill }.

(** The worksheet [ws]: its cells by (row, column), both counted from 1. *)
Abbreviation Worksheet := (gmap (nat * nat) Cell).

Global Instance exn_eq_dec : EqDecision exn.
Proof. solve_decision. Defined.
Global Instance result_eq_dec {A : Type} `{EqDecision A} : EqDecision (result A).
Proof. solve_decision. Defined.
Global Instance InlineFont_eq_dec : EqDecision InlineFont.
Proof. solve_decision. Defined.
Global Instance TextBlock_eq_dec : EqDecision TextBlock.
Proof. solve_decision. Defined.
Global Instance cell_value_eq_dec : EqDecision cell_value.
Proof. solve_decision. Defined.
Global Instance PatternFill_eq_dec : EqDecision PatternFill.
Proof. solve_decision. Defined.
Global Instance Cell_eq_dec : EqDecision Cell.
Proof. solve_decision. Defined.

Definition no_fill : PatternFill :=
  {| fill_type := None; start_color := "00000000"; end_color := "00000000" |}.

(** The cell [ws.cell] creates when none is there. *)
Definition blank_cell : Cell := {| value := VNone; fill := no_fill |}.

Definition set_fill (f : PatternFill) (c : Cell) : Cell :=
  {| value := value c; fill := f |}.

Definition set_value (v : cell_value) (c : Cell) : Cell :=
  {| value := v; fill := fill c |}.

(** The cell object [ws.cell(row=r, column=c)] refers to. *)
Definition ws_cell (ws : Worksheet) (r c : nat) : Cell :=
  default blank_cell (ws !! (r, c)).

(** [ws.cell(row=r, column=c)] followed by the update [f] of that cell; with
    [f := id] this is the bare access, which still creates the cell. *)
Definition ws_update (f : Cell → Cell) (r c : nat) (ws : Worksheet) : Worksheet :=
  <[(r, c) := f (ws_cell ws r c)]> ws.

(** [ws.max_row] and [ws.max_column]: 1 for a sheet without cells. *)
Definition max_row (ws : Worksheet) : nat :=
  map_fold (λ k _ acc, k.1 `max` acc) 1 ws.

Definition max_column (ws : Worksheet) : nat :=
  map_fold (λ k _ acc, k.2 `max` acc) 1 ws.

(** ** Helpers of [Compare.py] *)

(** Columns where a change is shown word by word. *)
Definition WORD_DIFF_COLUMNS : gset string := {["O"; "S"; "T"]}.

(** The class [[a-z0-9]] and the character [_] of [normalize_colname]. *)
Definition is_lower_alnum (c : ascii) : bool :=
  let n := Py.ord c in
  ((97 <=? n) && (n <=? 122) || (48 <=? n) && (n <=? 57))%N.

Definition is_underscore (c : ascii) : bool := (Py.ord c =? 95)%N.

(** [normalize_colname] (lines 34-39) on a [str]. *)
Definition normalize_colname (name : string) : string :=
  let s := Py.lower (Py.strip (Py.sub_runs Py.isspace " " name)) in
  let s := Py.sub_runs (λ c, negb (is_lower_alnum c)) "_" s in
  Py.strip_by is_underscore s.

(** [to_str] on a value read from a DataFrame (or the default of
    [Series.get]): NaN and [None] give the empty string. *)
Definition to_str (x : option string) : string :=
  match x with
  | None => ""
  | Some s => Py.strip s
  end.

(** [str(rt)] for a [CellRichText]. *)
Definition rich_str (rt : CellRichText) : string :=
  foldr (λ b acc, text b ++ acc) "" rt.

(** [to_str] on a cell value of the worksheet. On a [CellRichText], a
    subclass of [list], [pd.isna] answers element by element, and the truth
    value of that answer is defined only when it has exactly one entry. *)
Definition to_str_cell (v : cell_value) : result string :=
  match v with
  | VNone => Ok ""
  | VStr s => Ok (Py.strip s)
  | VRich rt =>
      if bool_decide (length rt = 1%nat) then Ok (Py.strip (rich_str rt))
      else Raise (ValueError "The truth value of an array with more than one element is ambiguous. Use a.any() or a.all()")
  end.

(** [row.get(label, "")] *)
Definition series_get (row : Series) (label : string) : option string :=
  default (Some "") (row !! label).

(** [openpyxl.utils.column_index_from_string]: one to three letters A-Z
    after [upper()], read in base 26. *)
Definition letter_value (c : ascii) : option nat :=
  let n := Py.ord c in
  if ((65 <=? n) && (n <=? 90))%N then Some (N.to_nat n - 64) else None.

Fixpoint letters_value (acc : nat) (s : string) : option nat :=
  match s with
  | "" => Some acc
  | String c s' => v ← letter_value c; letters_value (26 * acc + v) s'
  end.

Definition column_index_from_string (str_col : string) : result nat :=
  let u := Py.upper str_col in
  match (if bool_decide (1 ≤ String.length u ≤ 3)%nat then letters_value 0 u else None) with
  | Some idx => Ok idx
  | None => Raise (ValueError (str_col ++ " is not a valid column name"))
  end.

(** [value or ""] for a header cell, whose value is a [str] or [None]. *)
Definition header_text (v : cell_value) : string :=
  match v with
  | VStr s => s
  | _ => ""
  end.

(** [header_from_letter]: the header and the sheet after the access. *)
Definition header_from_letter (ws : Worksheet) (letter : string)
    : result (string * Worksheet) :=
  idx ← column_index_from_string letter;
  mret (header_text (value (ws_cell ws 1 idx)), ws_update id 1 idx ws).

(** [build_lookup] (lines 55-63): the rows by trimmed key, in table order. *)
Definition build_lookup (df : DataFrame) (key_header : string) : gmap string Series :=
  if bool_decide (key_header ∈ columns df) then
    foldl (λ lookup row,
             let key := to_str (series_get row key_header) in
             if bool_decide (key ≠ "") then <[key := row]> lookup else lookup)
          ∅ (rows df)
  else ∅.

(** One turn of the loop of [get_headers_for_letters]. *)
Definition get_header (acc : gmap string string * Worksheet) (L : string)
    : result (gmap string string * Worksheet) :=
  let '(header_map, ws) := acc in
  idx ← column_index_from_string L;
  let header_cell := header_text (value (ws_cell ws 1 idx)) in
  mret (<[L := header_cell]> header_map, ws_update id 1 idx ws).

Definition get_headers_for_letters (ws : Worksheet) (letters : list string)
    : result (gmap string string * Worksheet) :=
  for_each get_header letters (∅, ws).

(** The dict comprehension [{normalize_colname(c): c for c in cols}]: a
    later column replaces an earlier one with the same normalized name. *)
Definition norm_map (cols : list string) : gmap string string :=
  foldl (λ m c, <[normalize_colname c := c]> m) ∅ cols.

(** [find_matching_headers_in_q1] (lines 74-85): for each letter the header
    itself when the First workbook has it, else the column with the same
    normalized name, else the header itself again. *)
Definition find_matching_headers_in_q1 (df_q1 : DataFrame)
    (q2_headers : gmap string string) : gmap string string :=
  let q1_cols := columns df_q1 in
  let q1_norm_map := norm_map q1_cols in
  (λ h, if bool_decide (h ∈ q1_cols) then h
        else default h (q1_norm_map !! normalize_colname h)) <$> q2_headers.

(** The rich text [apply_word_diff] builds: one block per token of
    [new_text], compared with the token of [old_text] at the same index. *)
Definition word_diff_block (old_tokens new_tokens : list string)
    (i : nat) (token : string) : TextBlock :=
  {| font := if bool_decide (i < length old_tokens)%nat
                && bool_decide (old_tokens !! i = Some token)
             then font_default else font_red;
     text := if bool_decide (i < length new_tokens - 1)%nat
             then token ++ " " else token |}.

(** The [CellRichText] built by the loop of [apply_word_diff] (lines 93-108). *)
Definition word_diff (old_text new_text : string) : CellRichText :=
  let old_tokens := Py.split old_text in
  let new_tokens := Py.split new_text in
  imap (word_diff_block old_tokens new_tokens) new_tokens.

(** [apply_word_diff] (lines 87-110): the cell with the rich text as value. *)
Definition apply_word_diff (cell : Cell) (old_text new_text : string) : Cell :=
  set_value (VRich (word_diff old_text new_text)) cell.

(** ** [highlight_q2_changes] *)

(** Styles (light blue and pink; ARGB). *)
Definition light_blue : string := "FF94DCF8".
Definition light_pink : string := "FFED8EDA".

Definition solid (color : string) : PatternFill :=
  {| fill_type := Some "solid"; start_color := color; end_color := color |}.

Definition changed_fill : PatternFill := solid light_blue.
Definition cleared_fill : PatternFill := solid light_pink.
Definition newrow_fill : PatternFill := solid light_blue.

(** The three outcomes of the [if] / [elif] on a compared cell (Case 1,
    Case 2, neither). *)
Inductive classification := Cleared | Changed | Unchanged.

Global Instance classification_eq_dec : EqDecision classification.
Proof. solve_decision. Defined.

(** Lines 201-206: Case 1, Q1 has a value and Q2 is blank; Case 2, the
    values differ. *)
Definition classify (q1_val q2_val : string) : classification :=
  if bool_decide (q1_val ≠ "") && bool_decide (q2_val = "") then Cleared
  else if bool_decide (q2_val ≠ q1_val) then Changed
  else Unchanged.

(** What the comparison does to the cell [cell2] of column letter [L]. *)
Definition highlight (L q1_val q2_val : string) (cell2 : Cell) : Cell :=
  match classify q1_val q2_val with
  | Cleared => set_fill cleared_fill cell2
  | Changed =>
      let cell2 := set_fill changed_fill cell2 in
      if bool_decide (L ∈ WORD_DIFF_COLUMNS) && bool_decide (q2_val ≠ "")
      then apply_word_diff cell2 q1_val q2_val
      else cell2
  | Unchanged => cell2
  end.

(** The key header of the First workbook: the header of column B itself
    when it is a column there, else the column with the same normalized
    name. *)
Definition key_header_in_q1 (df_q1 : DataFrame) (key_header_q2 : string)
    : result string :=
  if bool_decide (key_header_q2 ∈ columns df_q1) then Ok key_header_q2
  else
    let q1_norm_map := norm_map (columns df_q1) in
    match q1_norm_map !! normalize_colname key_header_q2 with
    | Some key_header_q1 => Ok key_header_q1
    | None =>
        Raise (RuntimeError
          ("Could not find the OB Main ID header from column B ('" ++ key_header_q2
           ++ "') in the First workbook. Ensure both workbooks share the same OB Main ID header."))
    end.

(** How a row of the Second workbook is treated. *)
Inductive row_kind :=
  | NewRow
  | Existing (q1_row : Series)
  | Skipped.

Section scan.
Variables (df_q1 df_q2 : DataFrame) (target_letters : list string).
Variables (key_header_q2 : string) (q1_lookup : gmap string Series).
Variables (q2_headers_by_letter q1_headers_by_letter : gmap string string).
Variable (max_col : nat).

(** Line 179: [key_val and (key_val not in q1_lookup)]. *)
Definition is_new_project (key_val : string) : bool :=
  bool_decide (key_val ≠ "") && bool_decide (q1_lookup !! key_val = None).

(** Lines 181-189: a new project is filled and the loop continues; else the
    row is compared when its key is in [q1_lookup]; else nothing is done. *)
Definition row_kind_of (key_val : string) : row_kind :=
  if is_new_project key_val then NewRow
  else match q1_lookup !! key_val with
       | Some q1_row => Existing q1_row
       | None => Skipped
       end.

(** The key of the row of [df_q2] at position [df_idx]. *)
Definition key_of (row2 : Series) : string :=
  to_str (series_get row2 key_header_q2).

(** Highlight entire row for new projects. *)
Definition fill_new_row (r : nat) (ws : Worksheet) : Worksheet :=
  foldl (λ ws c, ws_update (set_fill newrow_fill) r c ws) ws (seq 1 max_col).

(** The header of the First workbook for letter [L], if any. *)
Definition q1_header_of (L : string) : option string :=
  let q2_header := q2_headers_by_letter !! L in
  match q1_headers_by_letter !! L with
  | Some h => Some h
  | None => q2_header
  end.

(** The value [q1_val] compared against. *)
Definition q1_val_of (q1_row : Series) (L : string) : string :=
  match q1_header_of L with
  | Some q1_header =>
      if bool_decide (q1_header ∈ columns df_q1)
      then to_str (series_get q1_row q1_header)
      else ""
  | None => ""
  end.

(** The body of the loop over [target_letters] (lines 190-210). *)
Definition compare_letter (q1_row : Series) (r : nat) (ws : Worksheet)
    (L : string) : result Worksheet :=
  col_idx ← column_index_from_string L;
  q2_val ← to_str_cell (value (ws_cell ws r col_idx));
  let q1_val := q1_val_of q1_row L in
  mret (ws_update (highlight L q1_val q2_val) r col_idx ws).

(** The body of the loop over the rows of the sheet (lines 173-210); rows
    past the end of [df_q2] are skipped. *)
Definition scan_row (ws : Worksheet) (r : nat) : result Worksheet :=
  let df_idx := (r - 2)%nat in
  match rows df_q2 !! df_idx with
  | None => Ok ws
  | Some row2 =>
      match row_kind_of (key_of row2) with
      | NewRow => Ok (fill_new_row r ws)
      | Existing q1_row => for_each (compare_letter q1_row r) target_letters ws
      | Skipped => Ok ws
      end
  end.

(** [for r in range(2, max_row + 1)] *)
Definition scan_rows (max_row : nat) (ws : Worksheet) : result Worksheet :=
  for_each scan_row (seq 2 (max_row - 1)) ws.

End scan.

(** What a successful run hands back: the workbook it saves and the two key
    headers. *)
Record Outcome := {
  saved : Worksheet;
  key_header_q1 : string;
  key_header_q2 : string;
}.

(** [highlight_q2_changes] (lines 112-220), from the sheet [ws] of the Second
    workbook as [load_workbook] gives it and the two DataFrames as [read_df]
    gives them. Reading the files, the progress callback and writing the
    saved workbook to its path are left out. *)
Definition highlight_q2_changes (df_q1 df_q2 : DataFrame) (ws : Worksheet)
    (target_letters : list string) : result Outcome :=
  if bool_decide (target_letters = []) then
    Raise (ValueError "No columns provided to compare. Please enter column letters (e.g., I,O,P,Q,R).")
  else
    '(key_header_q2, ws) ← header_from_letter ws "B";
    if bool_decide (key_header_q2 = "") then
      Raise (RuntimeError "Column B header is empty in the Second workbook. Please ensure column B contains the OB Main ID header.")
    else
      key_header_q1 ← key_header_in_q1 df_q1 key_header_q2;
      let q1_lookup := build_lookup df_q1 key_header_q1 in
      '(q2_headers_by_letter, ws) ← get_headers_for_letters ws target_letters;
      let q1_headers_by_letter :=
        find_matching_headers_in_q1 df_q1 q2_headers_by_letter in
      let max_row := max_row ws in
      let max_col := max_column ws in
      ws ← scan_rows df_q1 df_q2 target_letters key_header_q2 q1_lookup
             q2_headers_by_letter q1_headers_by_letter max_col max_row ws;
      mret {| saved := ws; key_header_q1 := key_header_q1;
              key_header_q2 := key_header_q2 |}.

(** The objects of a run once they are loaded: the DataFrame of the First
    workbook (the baseline table), and the DataFrame and the worksheet of
    the Second workbook (the current table). *)
Record Loaded := {
  loaded_df_q1 : DataFrame;
  loaded_df_q2 : DataFrame;
  loaded_ws : Worksheet;
}.

(** A run as a step on these objects. Lines 112-220 read [df_q1] and [df_q2]
    through [columns], [iterrows], [iloc] and [get] and assign into neither,
    so both come out as they went in; the worksheet is written in place and
    comes out as the run saves it. *)
Definition run_loaded (t : Loaded) (target_letters : list string)
    : result (Loaded * Outcome) :=
  o ← highlight_q2_changes (loaded_df_q1 t) (loaded_df_q2 t) (loaded_ws t)
        target_letters;
  mret ({| loaded_df_q1 := loaded_df_q1 t; loaded_df_q2 := loaded_df_q2 t;
           loaded_ws := saved o |}, o).

(** ** The form: [App.run_compare] *)

(** [s.split(sep)] for a separator of one character. *)
Fixpoint str_split_on (sep : ascii) (s : string) : list string :=
  match s with
  | "" => [""]
  | String c s' =>
      if Ascii.eqb c sep then "" :: str_split_on sep s'
      else match str_split_on sep s' with
           | t :: ts => String c t :: ts
           | [] => [String c ""]
           end
  end.

(** [[c.strip().upper() for c in cols_raw.split(",") if c.strip()]] *)
Definition parse_letters (cols_raw : string) : list string :=
  (λ c, Py.upper (Py.strip c))
    <$> filter (λ c, Py.strip c ≠ "") (str_split_on "," cols_raw).

(** What [run_compare] does with the form: an error box, or the call of
    [highlight_q2_changes] with these arguments. *)
Inductive form_result :=
  | showerror (msg : string)
  | call_highlight (q1 q2 : string) (target_letters : list string)
      (sheet_name : option string).

(** [run_compare] (lines 277-303) up to the call; [path_exists] stands for
    [os.path.exists]. *)
Definition run_compare (path_exists : string → bool)
    (q1_path q2_path sheet_name columns_letters : string) : form_result :=
  let q1 := Py.strip q1_path in
  let q2 := Py.strip q2_path in
  let sheet := if bool_decide (Py.strip sheet_name = "") then None
               else Some (Py.strip sheet_name) in
  let cols_raw := Py.strip columns_letters in
  if bool_decide (q1 = "") || negb (path_exists q1) then
    showerror "Please choose a valid First workbook."
  else if bool_decide (q2 = "") || negb (path_exists q2) then
    showerror "Please choose a valid Second workbook."
  else if bool_decide (cols_raw = "") then
    showerror "Please provide column letters to compare (e.g., I,O,P,Q,R)."
  else
    let letters := parse_letters cols_raw in
    if bool_decide (letters = []) then
      showerror "No valid column letters found (e.g., I,O,P,Q,R)."
    else call_highlight q1 q2 letters sheet.

(** ** Notions used to state the properties *)



(** One turn of a loop that files [val x] under [key x] in a dict. *)
Definition index_step {A V : Type} (key : A → option string) (val : A → V)
    (m : gmap string V) (x : A) : gmap string V :=
  match key x with
  | Some k => <[k := val x]> m
  | None => m
  end.

(** [x] is the last element of [l] filed under [k]. *)
Definition last_with_key {A : Type} (key : A → option string) (l : list A)
    (k : string) (x : A) : Prop :=
  ∃ pre post, l = (pre ++ x :: post)%list ∧ key x = Some k ∧
              ∀ y, y ∈ post → key y ≠ Some k.

(** The value of a cell as [load_workbook] gives it: a [str] or [None]. *)
Definition is_plain (v : cell_value) : Prop :=
  match v with
  | VRich _ => False
  | _ => True
  end.

(** Every cell from row [r] on is as loaded. *)
Definition rows_plain_from (r : nat) (ws : Worksheet) : Prop :=
  ∀ r' c, (r ≤ r')%nat → is_plain (value (ws_cell ws r' c)).

(** The string starts, or ends, with a character of the class [p]. *)
Definition starts_with_by (p : ascii → bool) (s : string) : bool :=
  match s with
  | "" => false
  | String c _ => p c
  end.

Fixpoint ends_with_by (p : ascii → bool) (s : string) : bool :=
  match s with
  | "" => false
  | String c "" => p c
  | String _ s' => ends_with_by p s'
  end.

(** Every character of the string is of the class [p]. *)
Fixpoint string_forall (p : ascii → bool) (s : string) : bool :=
  match s with
  | "" => true
  | String c s' => p c && string_forall p s'
  end.

(** No two neighbours in the string are both of the class [p]. *)
Fixpoint no_double (p : ascii → bool) (s : string) : bool :=
  match s with
  | String c1 (String c2 _ as s') => negb (p c1 && p c2) && no_double p s'
  | _ => true
  end.

(** A normalized column name: lower-case letters, digits and single
    underscores between them. *)
Definition is_normalized (s : string) : Prop :=
  string_forall (λ c, is_lower_alnum c || is_underscore c) s = true ∧
  starts_with_by is_underscore s = false ∧
  ends_with_by is_underscore s = false ∧
  no_double is_underscore s = true.

(** A letter as the form passes it on: not empty, no whitespace at either
    end, no comma. *)
Definition clean_letter (L : string) : Prop :=
  L ≠ "" ∧
  starts_with_by Py.isspace L = false ∧
  ends_with_by Py.isspace L = false ∧
  string_forall (λ c, negb (Ascii.eqb c ",")) L = true.

(** The header [find_matching_headers_in_q1] keeps for a header [h] of the
    Second workbook. *)
Definition q1_header_for (df_q1 : DataFrame) (h : string) : string :=
  if bool_decide (h ∈ columns df_q1) then h
  else default h (norm_map (columns df_q1) !! normalize_colname h).

(** The baseline value compared with a cell whose column has header [h] in
    the Second workbook. *)
Definition q1_val_for (df_q1 : DataFrame) (q1_row : Series) (h : string)
    : string :=
  if bool_decide (q1_header_for df_q1 h ∈ columns df_q1)
  then to_str (series_get q1_row (q1_header_for df_q1 h))
  else "".

(** Some letter of [letters] that is one of [WORD_DIFF_COLUMNS] names
    column [c]. *)
Definition word_diff_column (letters : list string) (c : nat) : Prop :=
  ∃ L, L ∈ letters ∧ L ∈ WORD_DIFF_COLUMNS ∧ column_index_from_string L = Ok c.

(** Row [r] of the sheet is one the run compares, with the row [q1_row] of
    the baseline index: a row from 2 to the last row of the sheet for which
    the DataFrame of the Second workbook has a row, whose key is in the
    index. *)
Definition compared_row (t : Loaded) (o : Outcome) (r : nat) (q1_row : Series)
    : Prop :=
  (2 ≤ r ≤ max_row (loaded_ws t))%nat ∧
  ∃ row2, rows (loaded_df_q2 t) !! (r - 2)%nat = Some row2 ∧
          build_lookup (loaded_df_q1 t) (key_header_q1 o)
            !! key_of (key_header_q2 o) row2 = Some q1_row.

(** The cell at row [r] and column [c] is one whose text the run replaces:
    its row is compared, a selected letter of [WORD_DIFF_COLUMNS] names its
    column, and its trimmed text [q2_val] is Changed against [q1_val], the
    value of the baseline row under the header of the column. *)
Definition rewritten_cell (t : Loaded) (target_letters : list string)
    (o : Outcome) (r c : nat) (q1_val q2_val : string) : Prop :=
  ∃ q1_row,
    compared_row t o r q1_row ∧
    word_diff_column target_letters c ∧
    q1_val = q1_val_for (loaded_df_q1 t) q1_row
               (header_text (value (ws_cell (loaded_ws t) 1 c))) ∧
    to_str_cell (value (ws_cell (loaded_ws t) r c)) = Ok q2_val ∧
    classify q1_val q2_val = Changed.

(** The value [v] of a cell that held [v0], once its row has been compared
    under the letters [done] against the baseline value [q1_val]: the word
    diff when the text of the cell is Changed and a letter of [done] that is
    one of [WORD_DIFF_COLUMNS] names its column [c], else [v0]. *)
Definition value_after (done : list string) (c : nat) (q1_val : string)
    (v0 v : cell_value) : Prop :=
  (∃ q2_val, to_str_cell v0 = Ok q2_val ∧ classify q1_val q2_val = Changed ∧
             word_diff_column done c ∧ v = VRich (word_diff q1_val q2_val)) ∨
  ((∀ q2_val, to_str_cell v0 = Ok q2_val → classify q1_val q2_val = Changed →
              ¬ word_diff_column done c) ∧
   v = v0).

(** The fill [f] of a cell whose fill was [f0]: kept, or one of the three
    fills of the run. *)
Definition fill_after (f0 f : PatternFill) : Prop :=
  f = f0 ∨ f = changed_fill ∨ f = cleared_fill ∨ f = newrow_fill.

(** The largest value of [proj] over the positions of the cells of a sheet,
    and 1 for a sheet without cells: [max_row] is the extent in rows and
    [max_column] the extent in columns. *)
Definition sheet_extent (proj : nat * nat → nat) (ws : Worksheet) : nat :=
  map_fold (λ k _ acc, proj k `max` acc) 1 ws.

(** The letter names a column of a sheet. *)
Definition valid_letter (L : string) : Prop :=
  ∃ idx, column_index_from_string L = Ok idx.

(** ** Sample workbooks *)

(** A sheet of text cells without fill, and a row of a DataFrame. The
    headers sit in row 1 and the key in column B. *)

Definition plain (s : string) : Cell := {| value := VStr s; fill := no_fill |}.

Definition sheet (cells : list (nat * nat * string)) : Worksheet :=
  list_to_map ((λ x, (x.1, plain x.2)) <$> cells).

Definition series (l : list (string * string)) : Series :=
  list_to_map ((λ x, (x.1, Some x.2)) <$> l).

Definition q1_demo : DataFrame :=
  {| columns := ["Name"; "OB Main ID"; "Status"];
     rows := [series [("Name", "n1"); ("OB Main ID", "1001"); ("Status", "Alpha Beta")]] |}.

Definition q2_demo : DataFrame :=
  {| columns := ["Name"; "OB Main ID"; "Status"];
     rows := [series [("Name", "n1"); ("OB Main ID", "1001"); ("Status", "Alpha Gamma")]] |}.

Definition ws_demo : Worksheet :=
  sheet [(1, 1, "Name"); (1, 2, "OB Main ID"); (1, 3, "Status");
         (2, 1, "n1"); (2, 2, "1001"); (2, 3, "Alpha Gamma")]%nat.

Definition q1_dup : DataFrame :=
  {| columns := ["OB Main ID"; "Status"];
     rows := [ series [("OB Main ID", " 7 "); ("Status", "first")];
               series [("Status", "no key")];
               series [("OB Main ID", "7"); ("Status", "second")] ] |}.

Definition q1_other : DataFrame :=
  {| columns := ["Name"; "Project"; "Status"];
     rows := [series [("Name", "n1"); ("Project", "1001"); ("Status", "Alpha Beta")]] |}.

Definition q1_drift : DataFrame :=
  {| columns := ["Name"; "ob main id"; "OB_Main_ID"; "Status"];
     rows := [series [("Name", "n1"); ("OB_Main_ID", "1001"); ("Status", "Alpha Beta")]] |}.

Definition q2_new : DataFrame :=
  {| columns := ["Name"; "OB Main ID"; "Status"];
     rows := [series [("Name", "n2"); ("OB Main ID", "2002"); ("Status", "Alpha Gamma")]] |}.

Definition ws_new : Worksheet :=
  sheet [(1, 1, "Name"); (1, 2, "OB Main ID"); (1, 3, "Status");
         (2, 1, "n2"); (2, 2, "2002"); (2, 3, "Alpha Gamma")]%nat.

Definition q2_nokey : DataFrame :=
  {| columns := ["Name"; "OB Main ID"; "Status"];
     rows := [ <["OB Main ID" := None]>
                 (series [("Name", "n1"); ("Status", "Alpha Gamma")]) ] |}.

Definition ws_nokey : Worksheet :=
  sheet [(1, 1, "Name"); (1, 2, "OB Main ID"); (1, 3, "Status");
         (2, 1, "n1"); (2, 3, "Alpha Gamma")]%nat.

Definition q1_nostatus : DataFrame :=
  {| columns := ["Name"; "OB Main ID"];
     rows := [series [("Name", "n1"); ("OB Main ID", "1001")]] |}.

Definition q1_O : DataFrame :=
  {| columns := ["OB Main ID"; "Status"];
     rows := [series [("OB Main ID", "1001"); ("Status", "Alpha Beta")]] |}.

Definition q2_O : DataFrame :=
  {| columns := ["OB Main ID"; "Status"];
     rows := [series [("OB Main ID", "1001"); ("Status", "Alpha Gamma")]] |}.

Definition ws_O : Worksheet :=
  sheet [(1, 2, "OB Main ID"); (1, 15, "Status");
         (2, 2, "1001"); (2, 15, "Alpha Gamma")]%nat.

Definition q1_AB : DataFrame :=
  {| columns := ["OB Main ID"; "X"];
     rows := [ series [("OB Main ID", "1001"); ("X", "Alpha")];
               series [("OB Main ID", "1002"); ("X", "Alpha")] ] |}.

Definition q2_AB : DataFrame :=
  {| columns := ["OB Main ID"; "X"];
     rows := [ series [("OB Main ID", "1001"); ("X", "Alpha")];
               <["X" := None]> (series [("OB Main ID", "1002")]) ] |}.

Definition ws_AB : Worksheet :=
  sheet [(1, 2, "OB Main ID"); (1, 3, "X");
         (2, 2, "1001"); (2, 3, "Alpha"); (3, 2, "1002")]%nat.

Definition q1_two : DataFrame :=
  {| columns := ["status"; "Status"; "STATUS"]; rows := [] |}.

(** * Properties *)

(** ** Scenarios *)

Example split_ex : Py.split "  Alpha   Beta Gamma " = ["Alpha"; "Beta"; "Gamma"].
Proof. reflexivity. Qed.

Example normalize_ex : normalize_colname "  OB  Main-ID (2024) " = "ob_main_id_2024".
Proof. reflexivity. Qed.

Example column_index_ex :
  column_index_from_string "B" = Ok 2%nat ∧
  column_index_from_string "o" = Ok 15%nat ∧
  column_index_from_string "AA" = Ok 27%nat ∧
  column_index_from_string "AAA" = Ok 703%nat.
Proof. repeat split; reflexivity. Qed.

(** ** Whitespace: [split], [join], [strip] and the collapse of runs *)

Section whitespace.
Local Abbreviation sp := Py.isspace.
Local Abbreviation collapse := (Py.sub_runs Py.isspace " ").


Lemma split_tokens_nonempty s : Forall (λ t, t ≠ "") (Py.split s).
Proof.
  induction s as [|c s IH]; simpl; [constructor|].
  destruct (sp c); [done|].
  destruct (Py.split s) as [|t ts]; [by repeat constructor|].
  destruct s as [|c' s]; [by repeat constructor|].
  inversion_clear IH. destruct (sp c'); by repeat constructor.
Qed.










End whitespace.

(** ** The word diff *)

Lemma string_app_nil_r (t : string) : t ++ "" = t.
Proof.
  induction t as [|c t IH]; [done|].
  change (String c (t ++ "") = String c t). by rewrite IH.
Qed.

Lemma string_app_assoc (t u v : string) : (t ++ u) ++ v = t ++ (u ++ v).
Proof.
  induction t as [|c t IH]; [done|].
  change (String c ((t ++ u) ++ v) = String c (t ++ (u ++ v))). by rewrite IH.
Qed.

Lemma rich_str_blocks old_tokens new_tokens l k :
  length new_tokens = (k + length l)%nat →
  rich_str (imap (λ i, word_diff_block old_tokens new_tokens (k + i)) l)
  = Py.join " " l.
Proof.
  revert k. induction l as [|t l IH]; intros k Hlen; [done|].
  rewrite imap_cons. simpl length in Hlen.
  rewrite (imap_ext _ (λ i, word_diff_block old_tokens new_tokens (S k + i)));
    last by (intros i x _; simpl; f_equal; lia).
  change (rich_str (?b :: ?rt)) with (text b ++ rich_str rt).
  rewrite (IH (S k)) by lia.
  unfold word_diff_block. simpl text.
  destruct l as [|t' l].
  - rewrite bool_decide_false by (simpl in Hlen; lia). simpl.
    apply string_app_nil_r.
  - rewrite bool_decide_true by (simpl in Hlen; lia).
    change (Py.join " " (t :: t' :: l)) with (t ++ " " ++ Py.join " " (t' :: l)).
    apply string_app_assoc.
Qed.


(** The whitespace of the current value is not kept: a tab or a double
    space between two words comes back as one space. *)
Example word_diff_text_tab :
  rich_str (word_diff "Alpha Beta" "Alpha	Gamma") = "Alpha Gamma" ∧
  rich_str (word_diff "Alpha Beta" "Alpha  Gamma") = "Alpha Gamma".
Proof. split; reflexivity. Qed.

(** C4. A compared cell is given a word diff exactly when it is Changed, its
    letter is one of [WORD_DIFF_COLUMNS] and the current value is not
    empty: then the cell comes out with the rich text [word_diff q1_val
    q2_val] as its value (and the changed fill); otherwise its value is
    kept, so that a cell that held plain text holds a rich text afterwards
    in that case only. The word diff has one block per
    whitespace-delimited token of the current value, block [i] carries
    token [i] (followed by one space unless it is the last), and its font is
    the default one exactly when the baseline has a token at index [i]
    equal to it, red otherwise. *)
Theorem word_diff_annotation (L q1_val q2_val : string) (cell2 : Cell) :
  let produced :=
    classify q1_val q2_val = Changed ∧ L ∈ WORD_DIFF_COLUMNS ∧ q2_val ≠ "" in
  (produced →
     highlight L q1_val q2_val cell2
     = apply_word_diff (set_fill changed_fill cell2) q1_val q2_val ∧
     highlight L q1_val q2_val cell2
     = {| value := VRich (word_diff q1_val q2_val); fill := changed_fill |}) ∧
  (¬ produced → value (highlight L q1_val q2_val cell2) = value cell2) ∧
  (is_plain (value cell2) →
     (produced ↔ ∃ rt, value (highlight L q1_val q2_val cell2) = VRich rt)) ∧
  length (word_diff q1_val q2_val) = length (Py.split q2_val) ∧
  (∀ i token, Py.split q2_val !! i = Some token →
     ∃ b, word_diff q1_val q2_val !! i = Some b ∧
          text b = (if bool_decide (i < length (Py.split q2_val) - 1)%nat
                    then token ++ " " else token) ∧
          (font b = font_default ↔
             (i < length (Py.split q1_val))%nat ∧ Py.split q1_val !! i = Some token) ∧
          (font b = font_red ↔
             ¬ ((i < length (Py.split q1_val))%nat ∧ Py.split q1_val !! i = Some token))).
Proof.
  intros produced. subst produced.
  assert (classify q1_val q2_val = Changed ∧ L ∈ WORD_DIFF_COLUMNS ∧ q2_val ≠ "" →
          highlight L q1_val q2_val cell2
          = apply_word_diff (set_fill changed_fill cell2) q1_val q2_val) as Hyes.
  { intros (Hc & HL & Hq). unfold highlight. rewrite Hc.
    by rewrite !bool_decide_true. }
  assert (¬ (classify q1_val q2_val = Changed ∧ L ∈ WORD_DIFF_COLUMNS ∧ q2_val ≠ "") →
          value (highlight L q1_val q2_val cell2) = value cell2) as Hno.
  { intros Hn. unfold highlight.
    destruct (classify q1_val q2_val) eqn:Hc; [done| |done].
    destruct (decide (L ∈ WORD_DIFF_COLUMNS)) as [HL|HL];
      [|by rewrite (bool_decide_false _ HL)].
    destruct (decide (q2_val ≠ "")) as [Hq|Hq]; [by destruct Hn|].
    by rewrite (bool_decide_false _ Hq), andb_false_r. }
  split; [|split; [|split; [|split]]].
  - intros Hp. split; [by apply Hyes|]. by rewrite (Hyes Hp).
  - exact Hno.
  - intros Hplain. split.
    + intros Hp. rewrite (Hyes Hp). by eexists.
    + intros [rt Hrt].
      destruct (decide (classify q1_val q2_val = Changed ∧
                        L ∈ WORD_DIFF_COLUMNS ∧ q2_val ≠ "")) as [Hp|Hn]; [done|].
      rewrite (Hno Hn) in Hrt. rewrite Hrt in Hplain. done.
  - unfold word_diff. apply length_imap.
  - intros i token Hi. unfold word_diff. rewrite list_lookup_imap, Hi. simpl.
    eexists; split; [done|]. unfold word_diff_block. simpl.
    split; [done|].
    repeat (case_bool_decide; simpl); split; intuition congruence.
Qed.

(** Scenario C: "Alpha Beta" against "Alpha Gamma". *)
Example word_diff_scenario_C :
  classify "Alpha Beta" "Alpha Gamma" = Changed ∧
  word_diff "Alpha Beta" "Alpha Gamma"
  = [ {| font := font_default; text := "Alpha " |};
      {| font := font_red; text := "Gamma" |} ].
Proof. split; reflexivity. Qed.

(** An inserted word turns every later token red. *)
Example word_diff_positional :
  font <$> word_diff "a b c" "a x b c" = [font_default; font_red; font_red; font_red].
Proof. reflexivity. Qed.

(** ** Cell classification *)

(** C1. On the trimmed values of a compared cell: Cleared exactly when the
    baseline value is not empty and the current one is; Unchanged exactly
    when the two are equal; Changed exactly when they differ and the cell is
    not Cleared. The cell is then filled pink (Cleared), filled blue
    (Changed) or left as it is (Unchanged). *)
Theorem classify_spec (L q1_val q2_val : string) (cell2 : Cell) :
  (classify q1_val q2_val = Cleared ↔ q1_val ≠ "" ∧ q2_val = "") ∧
  (classify q1_val q2_val = Unchanged ↔ q2_val = q1_val) ∧
  (classify q1_val q2_val = Changed ↔
     q2_val ≠ q1_val ∧ ¬ (q1_val ≠ "" ∧ q2_val = "")) ∧
  match classify q1_val q2_val with
  | Cleared => highlight L q1_val q2_val cell2 = set_fill cleared_fill cell2
  | Changed => fill (highlight L q1_val q2_val cell2) = changed_fill
  | Unchanged => highlight L q1_val q2_val cell2 = cell2
  end.
Proof.
  unfold highlight, classify.
  repeat (case_bool_decide; simpl); split_and!; try done;
    intuition congruence.
Qed.

(** ** Errors raised before the scan *)

(** C5. With no column letter to compare the run raises the [ValueError]
    of the first statement, whatever the workbooks hold: nothing is read,
    no row is scanned and no outcome is returned. *)
Theorem no_columns_raises (df_q1 df_q2 : DataFrame) (ws : Worksheet) :
  highlight_q2_changes df_q1 df_q2 ws []
  = Raise (ValueError "No columns provided to compare. Please enter column letters (e.g., I,O,P,Q,R).").
Proof. reflexivity. Qed.

(** ** Dictionaries filled in a loop: the last entry of a key wins *)

Local Close Scope string_scope.

Section last_wins.
Context {A V : Type} (key : A → option string) (val : A → V).

Lemma last_with_key_snoc l k x y :
  last_with_key key (l ++ [y]) k x ↔
  (key y = Some k ∧ x = y) ∨ (key y ≠ Some k ∧ last_with_key key l k x).
Proof.
  split.
  - intros (pre & post & Heq & Hk & Hpost).
    destruct post as [|z post _] using rev_ind.
    + apply (app_inj_tail l pre y x) in Heq as [-> ->]. by left.
    + rewrite app_comm_cons, app_assoc in Heq.
      apply app_inj_tail in Heq as [-> ->]. right. split.
      * apply Hpost. apply elem_of_app. right. by apply list_elem_of_singleton.
      * exists pre, post. split_and!; [done..|].
        intros y' Hy'. apply Hpost, elem_of_app. by left.
  - intros [[Hk ->]|[Hk (pre & post & -> & Hx & Hpost)]].
    + exists l, []. split_and!; [done..|]. by intros ? ?%elem_of_nil.
    + exists pre, (post ++ [y]). split_and!; [by rewrite <-app_assoc|done|].
      intros y' [?| ->%list_elem_of_singleton]%elem_of_app; auto.
Qed.

Lemma index_lookup_Some l k v :
  foldl (index_step key val) ∅ l !! k = Some v ↔
  ∃ x, last_with_key key l k x ∧ val x = v.
Proof.
  revert v. induction l as [|y l IH] using rev_ind; intros v.
  - simpl. rewrite lookup_empty. split; [done|].
    intros (x & (pre & post & Heq & _) & _). by destruct pre.
  - rewrite foldl_snoc. unfold index_step at 1.
    setoid_rewrite last_with_key_snoc.
    destruct (key y) as [k'|] eqn:Hy.
    + destruct (decide (k' = k)) as [->|Hne].
      * rewrite lookup_insert_eq. split.
        -- intros [= <-]. exists y. by split; [left|].
        -- intros (x & [[_ ->]|[? _]] & <-); [done|congruence].
      * rewrite lookup_insert_ne by done. rewrite IH. split.
        -- intros (x & Hx & <-). exists x. split; [|done]. right.
           split; [congruence|done].
        -- intros (x & [[? _]|[_ Hx]] & <-); [congruence|]. by exists x.
    + rewrite IH. split.
      * intros (x & Hx & <-). exists x. split; [|done]. by right.
      * intros (x & [[? _]|[_ Hx]] & <-); [congruence|]. by exists x.
Qed.

Lemma index_lookup_None l k :
  foldl (index_step key val) ∅ l !! k = None ↔ ∀ y, y ∈ l → key y ≠ Some k.
Proof.
  induction l as [|y l IH] using rev_ind.
  - simpl. rewrite lookup_empty. split; [|done]. by intros _ ? ?%elem_of_nil.
  - rewrite foldl_snoc. unfold index_step at 1.
    setoid_rewrite elem_of_app. setoid_rewrite list_elem_of_singleton.
    destruct (key y) as [k'|] eqn:Hy.
    + destruct (decide (k' = k)) as [->|Hne].
      * rewrite lookup_insert_eq. split; [done|].
        intros H. by destruct (H y); [right|].
      * rewrite lookup_insert_ne by done. rewrite IH. split.
        -- intros H y' [?| ->]; [auto|congruence].
        -- intros H y' ?. apply H. by left.
    + rewrite IH. split.
      * intros H y' [?| ->]; [auto|congruence].
      * intros H y' ?. apply H. by left.
Qed.
End last_wins.

Local Open Scope string_scope.

Lemma foldl_ext_all {A B} (f g : A → B → A) (l : list B) (a : A) :
  (∀ a x, f a x = g a x) → foldl f a l = foldl g a l.
Proof.
  intros Hfg. revert a.
  induction l as [|x l IH]; intros a; simpl; [done|]. by rewrite Hfg, IH.
Qed.

(** ** The baseline index *)

Lemma build_lookup_index (df : DataFrame) (key_header : string) :
  key_header ∈ columns df →
  build_lookup df key_header
  = foldl (index_step
             (λ row, if bool_decide (key_of key_header row ≠ "")
                     then Some (key_of key_header row) else None) id)
          ∅ (rows df).
Proof.
  intros Hin. unfold build_lookup. rewrite (bool_decide_true _ Hin).
  apply foldl_ext_all. intros lookup row. unfold index_step, key_of.
  by case_bool_decide.
Qed.

(** C7. The index built from the baseline rows files each row under its
    trimmed key: no row is filed under the empty key, every row with a
    non-empty key has its key in the index, and the row found under a key
    is the last row of the table with that key. *)
Theorem build_lookup_last_wins (df : DataFrame) (key_header : string)
    (Hin : key_header ∈ columns df) :
  build_lookup df key_header !! "" = None ∧
  (∀ k row,
     build_lookup df key_header !! k = Some row ↔
     k ≠ "" ∧
     ∃ pre post, rows df = (pre ++ row :: post)%list ∧
                 key_of key_header row = k ∧
                 ∀ row', row' ∈ post → key_of key_header row' ≠ k) ∧
  (∀ row, row ∈ rows df → key_of key_header row ≠ "" →
          is_Some (build_lookup df key_header !! key_of key_header row)).
Proof.
  rewrite build_lookup_index by done. split_and!.
  - apply index_lookup_None. intros row _. case_bool_decide; congruence.
  - intros k row. rewrite index_lookup_Some. unfold last_with_key. split.
    + intros (x & (pre & post & Heq & Hk & Hpost) & <-).
      case_bool_decide; [|done]. simplify_eq. split; [done|].
      exists pre, post. split_and!; [done..|].
      intros row' Hrow' Hk'. apply (Hpost row' Hrow').
      rewrite Hk'. by rewrite bool_decide_true.
    + intros (Hk & pre & post & Heq & <- & Hpost).
      exists row. split; [|done]. exists pre, post. split_and!; [done| |].
      * by rewrite bool_decide_true.
      * intros row' Hrow'. case_bool_decide; [|done].
        intros [= ?]. by apply (Hpost row').
  - intros row Hrow Hk. apply not_eq_None_Some. intros Hnone.
    eapply index_lookup_None in Hnone; [|exact Hrow].
    by rewrite bool_decide_true in Hnone.
Qed.

Example build_lookup_dup :
  build_lookup q1_dup "OB Main ID" !! "7"
  = Some (series [("OB Main ID", "7"); ("Status", "second")]) ∧
  build_lookup q1_dup "OB Main ID" !! " 7 " = None ∧
  build_lookup q1_dup "OB Main ID" !! "" = None.
Proof. repeat split; vm_compute; reflexivity. Qed.

Lemma build_lookup_last_wins_witness :
  build_lookup q1_dup "OB Main ID" !! "" = None ∧
  (∀ k row,
     build_lookup q1_dup "OB Main ID" !! k = Some row ↔
     k ≠ "" ∧
     ∃ pre post, rows q1_dup = (pre ++ row :: post)%list ∧
                 key_of "OB Main ID" row = k ∧
                 ∀ row', row' ∈ post → key_of "OB Main ID" row' ≠ k) ∧
  (∀ row, row ∈ rows q1_dup → key_of "OB Main ID" row ≠ "" →
          is_Some (build_lookup q1_dup "OB Main ID" !! key_of "OB Main ID" row)).
Proof.
  apply (build_lookup_last_wins q1_dup "OB Main ID").
  unfold q1_dup; simpl. apply list_elem_of_here.
Defined.

(** ** Resolving the key header *)

Lemma norm_map_index (cols : list string) :
  norm_map cols = foldl (index_step (λ c, Some (normalize_colname c)) id) ∅ cols.
Proof. reflexivity. Qed.

Lemma header_from_letter_B (ws : Worksheet) :
  header_from_letter ws "B"
  = Ok (header_text (value (ws_cell ws 1 2)), ws_update id 1 2 ws).
Proof. reflexivity. Qed.

(** C6. The header of column B is looked up among the columns of the First
    workbook as it is; when it is not one of them, the column taken is the
    (last) one with the same normalized name. When the header of column B
    is empty, or no column of the First workbook matches it either way, the
    run raises a [RuntimeError]: it returns no outcome and scans no row. *)
Theorem key_header_resolution (df_q1 df_q2 : DataFrame) (ws : Worksheet)
    (target_letters : list string) (key : string)
    (Hletters : target_letters ≠ [])
    (Hkey : header_text (value (ws_cell ws 1 2)) = key) :
  (key ∈ columns df_q1 → key_header_in_q1 df_q1 key = Ok key) ∧
  (key ∉ columns df_q1 →
   ∀ c, key_header_in_q1 df_q1 key = Ok c ↔
        last_with_key (λ c, Some (normalize_colname c)) (columns df_q1)
                      (normalize_colname key) c) ∧
  (key = "" ∨
   ((key ∉ columns df_q1) ∧
    (∀ c, c ∈ columns df_q1 → normalize_colname c ≠ normalize_colname key)) →
   ∃ msg, highlight_q2_changes df_q1 df_q2 ws target_letters
          = Raise (RuntimeError msg)).
Proof.
  split_and!.
  - intros Hin. unfold key_header_in_q1. by rewrite (bool_decide_true _ Hin).
  - intros Hnin c. unfold key_header_in_q1.
    rewrite (bool_decide_false _ Hnin), norm_map_index.
    destruct ((foldl _ _ _) !! _) as [c'|] eqn:Hm.
    + apply index_lookup_Some in Hm as (x & Hx & <-). split.
      * by intros [= <-].
      * intros Hc.
        assert (∀ y, last_with_key (λ c, Some (normalize_colname c))
                       (columns df_q1) (normalize_colname key) y →
                     norm_map (columns df_q1) !! normalize_colname key = Some y)
          as Hlast.
        { intros y Hy. rewrite norm_map_index. apply index_lookup_Some.
          by exists y. }
        pose proof (Hlast _ Hx) as E1. pose proof (Hlast _ Hc) as E2.
        rewrite E1 in E2. by injection E2 as ->.
    + split; [done|]. intros (pre & post & Heq & Hc & _).
      rewrite index_lookup_None in Hm. destruct (Hm c); [|done].
      rewrite Heq. apply elem_of_app. right. apply list_elem_of_here.
  - intros Hbad. unfold highlight_q2_changes.
    rewrite (bool_decide_false _ Hletters), header_from_letter_B. simpl.
    rewrite Hkey. case_bool_decide as Hempty; [by eexists|].
    destruct Hbad as [?|[Hnin Hnorm]]; [done|].
    unfold key_header_in_q1.
    rewrite (bool_decide_false _ Hnin), norm_map_index.
    destruct ((foldl _ _ _) !! _) as [c'|] eqn:Hm.
    + apply index_lookup_Some in Hm as (x & (pre & post & Heq & Hc & _) & _).
      destruct (Hnorm x); [|congruence].
      rewrite Heq. apply elem_of_app. right. apply list_elem_of_here.
    + simpl. by eexists.
Qed.

Example key_header_exact : key_header_in_q1 q1_demo "OB Main ID" = Ok "OB Main ID".
Proof. vm_compute. reflexivity. Qed.

Example key_header_normalized : key_header_in_q1 q1_drift "OB Main ID" = Ok "OB_Main_ID".
Proof. vm_compute. reflexivity. Qed.

Lemma key_header_resolution_witness :
  ∃ msg, highlight_q2_changes q1_other q2_demo ws_demo ["C"]
         = Raise (RuntimeError msg).
Proof.
  apply (key_header_resolution q1_other q2_demo ws_demo ["C"] "OB Main ID").
  - discriminate.
  - vm_compute. reflexivity.
  - right. split.
    + apply (bool_decide_unpack _). vm_compute. exact I.
    + apply Forall_forall. apply (bool_decide_unpack _). vm_compute. exact I.
Defined.

(** ** Cells of the worksheet under the updates of the scan *)

Lemma ws_cell_update (f : Cell → Cell) (r c r' c' : nat) (ws : Worksheet) :
  ws_cell (ws_update f r c ws) r' c'
  = if bool_decide ((r', c') = (r, c)) then f (ws_cell ws r c)
    else ws_cell ws r' c'.
Proof.
  unfold ws_update, ws_cell at 1. case_bool_decide as Heq.
  - rewrite Heq. by rewrite lookup_insert_eq.
  - by rewrite lookup_insert_ne.
Qed.

(** A bare [ws.cell(...)] access shows on no cell. *)
Lemma ws_cell_touch (r c r' c' : nat) (ws : Worksheet) :
  ws_cell (ws_update id r c ws) r' c' = ws_cell ws r' c'.
Proof. rewrite ws_cell_update. case_bool_decide; by simplify_eq. Qed.

Lemma ws_cell_fill_new_row (max_col r r' c' : nat) (ws : Worksheet) :
  ws_cell (fill_new_row max_col r ws) r' c'
  = if bool_decide (r' = r ∧ 1 ≤ c' ≤ max_col)%nat
    then set_fill newrow_fill (ws_cell ws r' c')
    else ws_cell ws r' c'.
Proof.
  unfold fill_new_row. revert r' c'. induction max_col as [|n IH]; intros r' c'.
  - simpl. rewrite bool_decide_false; [done|lia].
  - rewrite seq_S, foldl_snoc, ws_cell_update, !IH.
    repeat case_bool_decide; simplify_eq; try done; try lia.
    match goal with H : _ ≠ _ |- _ => destruct H; f_equal; lia end.
Qed.

Lemma for_each_cons {A S : Type} (body : S → A → result S) (x : A)
    (l : list A) (s : S) :
  for_each body (x :: l) s = s' ← body s x; for_each body l s'.
Proof. reflexivity. Qed.

Lemma get_header_Ok (header_map : gmap string string) (ws : Worksheet)
    (L : string) (idx : nat) :
  column_index_from_string L = Ok idx →
  get_header (header_map, ws) L
  = Ok (<[L := header_text (value (ws_cell ws 1 idx))]> header_map,
        ws_update id 1 idx ws).
Proof. intros Hidx. unfold get_header. by rewrite Hidx. Qed.

Lemma get_header_Raise (header_map : gmap string string) (ws : Worksheet)
    (L : string) (e : exn) :
  column_index_from_string L = Raise e →
  get_header (header_map, ws) L = Raise e.
Proof. intros Hidx. unfold get_header. by rewrite Hidx. Qed.

Lemma get_headers_loop (letters : list string) (ws ws' : Worksheet)
    (header_map header_map' : gmap string string) :
  for_each get_header letters (header_map, ws) = Ok (header_map', ws') →
  (∀ r c, ws_cell ws' r c = ws_cell ws r c) ∧
  ∀ L, (L ∈ letters →
        ∃ idx, column_index_from_string L = Ok idx ∧
               header_map' !! L = Some (header_text (value (ws_cell ws 1 idx)))) ∧
       (L ∉ letters → header_map' !! L = header_map !! L).
Proof.
  revert ws header_map.
  induction letters as [|L' letters IH]; intros ws header_map.
  - intros [= <- <-]. split; [done|]. intros L. split; [|done].
    by intros ?%elem_of_nil.
  - rewrite for_each_cons.
    destruct (column_index_from_string L') as [idx|e] eqn:Hidx;
      [rewrite (get_header_Ok _ _ _ _ Hidx)
      |by rewrite (get_header_Raise _ _ _ _ Hidx)].
    change (Ok ?x ≫= ?f) with (f x). cbn beta.
    intros [Hcells Hmap]%IH. split.
    + intros r c. rewrite Hcells. apply ws_cell_touch.
    + intros L. destruct (Hmap L) as [Hin Hnin]. split.
      * intros HL. destruct (decide (L ∈ letters)) as [Hl|Hl].
        -- destruct (Hin Hl) as (idx' & Hidx' & Hm). exists idx'.
           by rewrite Hm, ws_cell_touch.
        -- apply elem_of_cons in HL as [->|?]; [|done].
           exists idx. split; [done|]. by rewrite (Hnin Hl), lookup_insert_eq.
      * intros HL. apply not_elem_of_cons in HL as [Hne Hl].
        rewrite (Hnin Hl). by rewrite lookup_insert_ne.
Qed.

Lemma get_headers_for_letters_cells (letters : list string) (ws ws' : Worksheet)
    (header_map : gmap string string) :
  get_headers_for_letters ws letters = Ok (header_map, ws') →
  ∀ r c, ws_cell ws' r c = ws_cell ws r c.
Proof. intros H. by apply get_headers_loop in H as [? _]. Qed.

(** The header map has the header of every letter asked for. *)
Lemma get_headers_for_letters_lookup (letters : list string) (ws ws' : Worksheet)
    (header_map : gmap string string) (L : string) :
  get_headers_for_letters ws letters = Ok (header_map, ws') →
  L ∈ letters →
  ∃ idx, column_index_from_string L = Ok idx ∧
         header_map !! L = Some (header_text (value (ws_cell ws 1 idx))).
Proof. intros H. apply get_headers_loop in H as [_ H]. apply H. Qed.

(** ** Rows *)

Lemma row_kind_NewRow (q1_lookup : gmap string Series) (key_val : string) :
  row_kind_of q1_lookup key_val = NewRow ↔
  key_val ≠ "" ∧ q1_lookup !! key_val = None.
Proof.
  unfold row_kind_of, is_new_project.
  destruct (q1_lookup !! key_val) eqn:Hk;
    repeat case_bool_decide; simpl; intuition congruence.
Qed.

(** C2. A row of the Second workbook is a new row exactly when its trimmed
    key is not empty and is not in the baseline index. Such a row is only
    filled, across the columns of the sheet; none of the selected columns is
    compared: every cell of the sheet keeps its value, and only the cells of
    that row change their fill. *)
Theorem new_row_iff (df_q1 df_q2 : DataFrame) (target_letters : list string)
    (key_header_q2 : string) (q1_lookup : gmap string Series)
    (q2_headers_by_letter q1_headers_by_letter : gmap string string)
    (max_col r : nat) (ws : Worksheet) (row2 : Series)
    (Hrow : rows df_q2 !! (r - 2)%nat = Some row2) :
  let key_val := key_of key_header_q2 row2 in
  (row_kind_of q1_lookup key_val = NewRow ↔
     key_val ≠ "" ∧ q1_lookup !! key_val = None) ∧
  (row_kind_of q1_lookup key_val = NewRow →
     scan_row df_q1 df_q2 target_letters key_header_q2 q1_lookup
       q2_headers_by_letter q1_headers_by_letter max_col ws r
     = Ok (fill_new_row max_col r ws) ∧
     ∀ r' c', ws_cell (fill_new_row max_col r ws) r' c'
              = if bool_decide (r' = r ∧ 1 ≤ c' ≤ max_col)%nat
                then set_fill newrow_fill (ws_cell ws r' c')
                else ws_cell ws r' c').
Proof.
  intros key_val. split; [apply row_kind_NewRow|].
  intros Hnew. split.
  - unfold scan_row. rewrite Hrow. fold key_val. by rewrite Hnew.
  - intros r' c'. apply ws_cell_fill_new_row.
Qed.

Lemma new_row_iff_witness :
  let q1_lookup := build_lookup q1_demo "OB Main ID" in
  let scan := scan_row q1_demo q2_new ["C"] "OB Main ID" q1_lookup ∅ ∅ 3 in
  row_kind_of q1_lookup "2002" = NewRow ∧
  scan ws_new 2%nat = Ok (fill_new_row 3 2 ws_new) ∧
  ws_cell (fill_new_row 3 2 ws_new) 2 3
  = {| value := VStr "Alpha Gamma"; fill := newrow_fill |}.
Proof.
  intros q1_lookup scan.
  destruct (new_row_iff q1_demo q2_new ["C"] "OB Main ID" q1_lookup ∅ ∅ 3 2
              ws_new (series [("Name", "n2"); ("OB Main ID", "2002");
                              ("Status", "Alpha Gamma")]) eq_refl)
    as [Hiff Hscan].
  assert (row_kind_of q1_lookup "2002" = NewRow) as Hnew.
  { apply Hiff. split; [discriminate|]. vm_compute. reflexivity. }
  split; [exact Hnew|].
  destruct (Hscan Hnew) as [Hrun Hcells]. split; [exact Hrun|].
  rewrite Hcells. vm_compute. reflexivity.
Defined.

(** Scenario D: the key "2002" is not in the baseline; the whole row is
    filled and the changed cell gets no word diff. *)
Example scenario_D :
  ∃ o, highlight_q2_changes q1_demo q2_new ws_new ["C"; "O"] = Ok o ∧
       ws_cell (saved o) 2 1 = {| value := VStr "n2"; fill := newrow_fill |} ∧
       ws_cell (saved o) 2 3 = {| value := VStr "Alpha Gamma"; fill := newrow_fill |}.
Proof. eexists. split; [vm_compute; reflexivity|]. split; vm_compute; reflexivity. Qed.

(** Against C3 as stated. A row of the Second workbook whose key is empty is
    neither a new row nor compared: the index holds no row for the empty key, so the row is passed
    over and its cells stay as they were, whatever the baseline holds. *)
Lemma empty_key_row_passed_over :
  ¬ (∀ (df_q1 : DataFrame) (key_header : string) (row2 : Series),
       let kind := row_kind_of (build_lookup df_q1 key_header)
                               (key_of key_header row2) in
       kind = NewRow ∨ ∃ q1_row, kind = Existing q1_row) ∧
  ∃ o, highlight_q2_changes q1_demo q2_nokey ws_nokey ["C"] = Ok o ∧
       saved o = ws_nokey ∧
       ws_cell (saved o) 2 3 = plain "Alpha Gamma".
Proof.
  split.
  - intros H.
    destruct (H q1_demo "OB Main ID" (<["OB Main ID" := None]> ∅))
      as [Hk|[q1_row Hk]]; vm_compute in Hk; discriminate.
  - eexists. split; [vm_compute; reflexivity|].
    split; vm_compute; reflexivity.
Qed.

Lemma build_lookup_empty_key (df : DataFrame) (key_header : string) :
  build_lookup df key_header !! "" = None.
Proof.
  destruct (decide (key_header ∈ columns df)) as [Hin|Hnin].
  - rewrite build_lookup_index by done. apply index_lookup_None.
    intros row _. case_bool_decide; congruence.
  - unfold build_lookup. by rewrite (bool_decide_false _ Hnin).
Qed.

(** C3, as the code has it. Every row of the Second workbook that the scan
    reaches is treated in exactly one of three ways, decided by its trimmed
    key: a key that is not empty and not in the baseline index makes it a new
    row, which is filled; a key in the index has the row compared letter by
    letter over all the selected columns, against the baseline row of that
    key; an empty key has the row passed over, the sheet left as it was. *)
Theorem row_treated_once (df_q1 df_q2 : DataFrame) (target_letters : list string)
    (key_header_q1 key_header_q2 : string)
    (q2_headers_by_letter q1_headers_by_letter : gmap string string)
    (max_col r : nat) (ws : Worksheet) (row2 : Series)
    (Hrow : rows df_q2 !! (r - 2)%nat = Some row2) :
  let q1_lookup := build_lookup df_q1 key_header_q1 in
  let key_val := key_of key_header_q2 row2 in
  let scan := scan_row df_q1 df_q2 target_letters key_header_q2 q1_lookup
                q2_headers_by_letter q1_headers_by_letter max_col ws r in
  (key_val = "" ↔ row_kind_of q1_lookup key_val = Skipped) ∧
  match row_kind_of q1_lookup key_val with
  | NewRow =>
      key_val ≠ "" ∧ q1_lookup !! key_val = None ∧
      scan = Ok (fill_new_row max_col r ws)
  | Existing q1_row =>
      key_val ≠ "" ∧ q1_lookup !! key_val = Some q1_row ∧
      scan = for_each (compare_letter df_q1 q2_headers_by_letter
                         q1_headers_by_letter q1_row r) target_letters ws
  | Skipped => key_val = "" ∧ scan = Ok ws
  end.
Proof.
  intros q1_lookup key_val scan.
  pose proof (build_lookup_empty_key df_q1 key_header_q1) as Hempty.
  fold q1_lookup in Hempty.
  assert (scan = match row_kind_of q1_lookup key_val with
                 | NewRow => Ok (fill_new_row max_col r ws)
                 | Existing q1_row =>
                     for_each (compare_letter df_q1 q2_headers_by_letter
                                 q1_headers_by_letter q1_row r) target_letters ws
                 | Skipped => Ok ws
                 end) as Hscan.
  { unfold scan, scan_row. by rewrite Hrow. }
  revert Hscan. generalize scan. clear scan. intros scan ->.
  unfold row_kind_of, is_new_project.
  destruct (decide (key_val = "")) as [Hk|Hk].
  - rewrite Hk, Hempty. simpl. by split; [split|].
  - rewrite (bool_decide_true _ Hk). simpl.
    destruct (q1_lookup !! key_val) as [q1_row|] eqn:Hl.
    + rewrite bool_decide_false by done. by split; [split|].
    + rewrite bool_decide_true by done. by split; [split|].
Qed.

Lemma row_treated_once_witness :
  let q1_lookup := build_lookup q1_demo "OB Main ID" in
  row_kind_of q1_lookup "" = Skipped ∧
  scan_row q1_demo q2_nokey ["C"] "OB Main ID" q1_lookup ∅ ∅ 3 ws_nokey 2
  = Ok ws_nokey.
Proof.
  intros q1_lookup.
  pose proof (row_treated_once q1_demo q2_nokey ["C"] "OB Main ID" "OB Main ID"
                ∅ ∅ 3 2 ws_nokey
                (<["OB Main ID" := None]>
                   (series [("Name", "n1"); ("Status", "Alpha Gamma")]))
                eq_refl) as [Hiff Hcase].
  change (key_of "OB Main ID" _) with "" in Hiff, Hcase.
  fold q1_lookup in Hiff, Hcase.
  assert (row_kind_of q1_lookup "" = Skipped) as Hs by (by apply Hiff).
  rewrite Hs in Hcase. split; [exact Hs|]. apply Hcase.
Defined.

(** ** A selected column that the First workbook does not have *)

(** C8. When the header of a selected column is no column of the First
    workbook, as it is or by normalized name, the header kept for the
    First workbook is the header itself, the baseline value of every row is
    the empty string, and comparing the cell raises nothing of its own: the
    cell is never Cleared, it is Changed when the current value is not empty
    and Unchanged when it is. *)
Theorem column_missing_in_q1 (df_q1 : DataFrame)
    (q2_headers_by_letter : gmap string string) (L h : string)
    (Hq2 : q2_headers_by_letter !! L = Some h)
    (Hexact : h ∉ columns df_q1)
    (Hnorm : ∀ c, c ∈ columns df_q1 → normalize_colname c ≠ normalize_colname h) :
  let q1_headers_by_letter :=
    find_matching_headers_in_q1 df_q1 q2_headers_by_letter in
  q1_headers_by_letter !! L = Some h ∧
  (∀ q1_row, q1_val_of df_q1 q2_headers_by_letter q1_headers_by_letter q1_row L = "") ∧
  (∀ q1_row r ws col_idx q2_val,
     column_index_from_string L = Ok col_idx →
     to_str_cell (value (ws_cell ws r col_idx)) = Ok q2_val →
     compare_letter df_q1 q2_headers_by_letter q1_headers_by_letter q1_row r ws L
     = Ok (ws_update (highlight L "" q2_val) r col_idx ws)) ∧
  (∀ q2_val, classify "" q2_val ≠ Cleared ∧
             (q2_val ≠ "" → classify "" q2_val = Changed) ∧
             (q2_val = "" → classify "" q2_val = Unchanged)).
Proof.
  intros q1_headers_by_letter.
  assert (q1_headers_by_letter !! L = Some h) as Hq1.
  { unfold q1_headers_by_letter, find_matching_headers_in_q1.
    rewrite lookup_fmap, Hq2. simpl. rewrite (bool_decide_false _ Hexact).
    f_equal. rewrite norm_map_index.
    destruct ((foldl _ _ _) !! _) as [c|] eqn:Hm; [|done].
    apply index_lookup_Some in Hm as (x & (pre & post & Heq & Hx & _) & _).
    destruct (Hnorm x); [|congruence].
    rewrite Heq. apply elem_of_app. right. apply list_elem_of_here. }
  assert (∀ q1_row, q1_val_of df_q1 q2_headers_by_letter q1_headers_by_letter
                      q1_row L = "") as Hval.
  { intros q1_row. unfold q1_val_of, q1_header_of. rewrite Hq1.
    by rewrite (bool_decide_false _ Hexact). }
  split_and!; [done|done| |].
  - intros q1_row r ws col_idx q2_val Hcol Hcell. unfold compare_letter.
    rewrite Hcol. simpl. rewrite Hcell. simpl. by rewrite Hval.
  - intros q2_val. unfold classify.
    rewrite bool_decide_false by (by intros []). simpl.
    case_bool_decide; split_and!; congruence.
Qed.

Lemma column_missing_in_q1_witness :
  let q2_headers := {["C" := "Status"]} : gmap string string in
  let q1_headers := find_matching_headers_in_q1 q1_nostatus q2_headers in
  q1_headers !! "C" = Some "Status" ∧
  compare_letter q1_nostatus q2_headers q1_headers
    (series [("Name", "n1"); ("OB Main ID", "1001")]) 2 ws_demo "C"
  = Ok (ws_update (highlight "C" "" "Alpha Gamma") 2 3 ws_demo) ∧
  classify "" "Alpha Gamma" = Changed.
Proof.
  intros q2_headers q1_headers.
  assert ("Status" ∉ columns q1_nostatus) as Hexact.
  { apply (bool_decide_unpack _). vm_compute. exact I. }
  assert (∀ c, c ∈ columns q1_nostatus →
               normalize_colname c ≠ normalize_colname "Status") as Hnorm.
  { apply Forall_forall. apply (bool_decide_unpack _). vm_compute. exact I. }
  destruct (column_missing_in_q1 q1_nostatus q2_headers "C" "Status"
              eq_refl Hexact Hnorm) as (H1 & _ & H3 & H4).
  split; [exact H1|]. split.
  - apply H3; vm_compute; reflexivity.
  - apply H4. discriminate.
Defined.

(** ** What a run changes in the sheet *)

Lemma for_each_invariant {A S : Type} (P : S → Prop) (body : S → A → result S)
    (l : list A) (s s' : S) :
  (∀ s x s', x ∈ l → P s → body s x = Ok s' → P s') →
  P s → for_each body l s = Ok s' → P s'.
Proof.
  revert s. induction l as [|x l IH]; intros s Hbody Hs; simpl.
  - by intros [= <-].
  - destruct (body s x) as [s1|e] eqn:Hx; simpl; [|done].
    apply IH.
    + intros s2 y s3 Hy. apply Hbody. by apply list_elem_of_further.
    + eapply Hbody; [apply list_elem_of_here|exact Hs|exact Hx].
Qed.

Lemma for_each_app {A S : Type} (body : S → A → result S) (l k : list A)
    (s : S) :
  for_each body (l ++ k)%list s = s' ← for_each body l s; for_each body k s'.
Proof.
  revert s. induction l as [|x l IH]; intros s; simpl; [done|].
  destruct (body s x); simpl; [apply IH|done].
Qed.

(** ** A run on a freshly loaded sheet succeeds *)

Lemma to_str_cell_plain (v : cell_value) :
  is_plain v → ∃ q2_val, to_str_cell v = Ok q2_val.
Proof. destruct v; simpl; [by eexists..|done]. Qed.

Lemma get_headers_for_letters_ok (letters : list string) (ws : Worksheet) :
  Forall (λ L, ∃ idx, column_index_from_string L = Ok idx) letters →
  ∃ header_map ws', get_headers_for_letters ws letters = Ok (header_map, ws').
Proof.
  intros Hvalid. unfold get_headers_for_letters. generalize (∅ : gmap string string).
  revert ws.
  induction Hvalid as [|L letters [idx Hidx] _ IH]; intros ws header_map.
  - by eexists _, _.
  - rewrite for_each_cons, (get_header_Ok _ _ _ _ Hidx).
    change (Ok ?x ≫= ?f) with (f x). cbn beta. apply IH.
Qed.

Section scan_succeeds.
Variables (df_q1 df_q2 : DataFrame).
Variables (key_header_q2 : string) (q1_lookup : gmap string Series).
Variables (q2_headers_by_letter q1_headers_by_letter : gmap string string).
Variable (max_col : nat).

(** Comparing the letters of a row whose cells are as loaded, when no two
    letters name the same column: every comparison goes through, only the
    cells of that row under the letters are written, and each of them is
    the cell it was, highlighted for its own letter. *)
Lemma compare_letters_ok (q1_row : Series) (r : nat) (letters : list string)
    (ws : Worksheet) :
  Forall (λ L, ∃ idx, column_index_from_string L = Ok idx) letters →
  NoDup (column_index_from_string <$> letters) →
  (∀ L idx, L ∈ letters → column_index_from_string L = Ok idx →
            is_plain (value (ws_cell ws r idx))) →
  ∃ ws', for_each (compare_letter df_q1 q2_headers_by_letter
                     q1_headers_by_letter q1_row r) letters ws = Ok ws' ∧
         (∀ r' c, r' ≠ r ∨ Ok c ∉ column_index_from_string <$> letters →
                  ws_cell ws' r' c = ws_cell ws r' c) ∧
         (∀ L idx, L ∈ letters → column_index_from_string L = Ok idx →
            ∃ q2_val,
              to_str_cell (value (ws_cell ws r idx)) = Ok q2_val ∧
              ws_cell ws' r idx
              = highlight L (q1_val_of df_q1 q2_headers_by_letter
                               q1_headers_by_letter q1_row L)
                  q2_val (ws_cell ws r idx)).
Proof.
  intros Hvalid. revert ws.
  induction Hvalid as [|L letters [idx Hidx] _ IH]; intros ws Hdup Hplain.
  - exists ws. split_and!; [done|done|]. by intros ? ? ?%elem_of_nil.
  - rewrite fmap_cons in Hdup. apply NoDup_cons in Hdup as [Hfresh Hdup].
    rewrite Hidx in Hfresh.
    destruct (to_str_cell_plain (value (ws_cell ws r idx))) as [q2_val Hq].
    { eapply Hplain; [apply list_elem_of_here|done]. }
    set (ws1 := ws_update
                  (highlight L (q1_val_of df_q1 q2_headers_by_letter
                                  q1_headers_by_letter q1_row L) q2_val)
                  r idx ws).
    assert (compare_letter df_q1 q2_headers_by_letter q1_headers_by_letter
              q1_row r ws L = Ok ws1) as Hstep.
    { unfold compare_letter. rewrite Hidx. simpl. by rewrite Hq. }
    assert (∀ L' idx', L' ∈ letters → column_index_from_string L' = Ok idx' →
                       ws_cell ws1 r idx' = ws_cell ws r idx') as Hlater.
    { intros L' idx' HL' Hidx'. unfold ws1. rewrite ws_cell_update.
      rewrite bool_decide_false; [done|].
      intros Heq. simplify_eq. apply Hfresh. rewrite <-Hidx'.
      by apply list_elem_of_fmap_2. }
    rewrite for_each_cons, Hstep. simpl.
    destruct (IH ws1 Hdup) as (ws' & Hrun & Hother & Hcells).
    { intros L' idx' HL' Hidx'. rewrite (Hlater L') by done.
      eapply Hplain; [by apply list_elem_of_further|done]. }
    exists ws'. split_and!; [done| |].
    + intros r' c Hc. rewrite Hother.
      * unfold ws1. rewrite ws_cell_update. rewrite bool_decide_false; [done|].
        intros Heq. simplify_eq. destruct Hc as [?|Hc]; [done|].
        apply Hc. rewrite Hidx. apply list_elem_of_here.
      * destruct Hc as [?|Hc]; [by left|right].
        intros ?. apply Hc. by apply list_elem_of_further.
    + intros L' idx' [->|HL']%elem_of_cons Hidx'.
      * assert (idx' = idx) as -> by congruence.
        exists q2_val. split; [done|].
        rewrite Hother by (by right). unfold ws1. rewrite ws_cell_update.
        by rewrite bool_decide_true.
      * destruct (Hcells L' idx' HL' Hidx') as (q2 & Hq2 & Hcell).
        rewrite (Hlater L' idx') in Hq2, Hcell by done. by exists q2.
Qed.

Lemma compare_letter_other_rows (q1_row : Series) (r : nat) (ws ws' : Worksheet)
    (L : string) :
  compare_letter df_q1 q2_headers_by_letter q1_headers_by_letter q1_row r ws L
  = Ok ws' →
  ∀ r' c, r' ≠ r → ws_cell ws' r' c = ws_cell ws r' c.
Proof.
  unfold compare_letter.
  destruct (column_index_from_string L) as [idx|e]; simpl; [|done].
  destruct (to_str_cell _) as [q2_val|e]; simpl; [|done].
  intros [= <-] r' c Hr'. rewrite ws_cell_update.
  rewrite bool_decide_false; [done|congruence].
Qed.

(** Scanning a row writes no cell of another row. *)
Lemma scan_row_other_rows (target_letters : list string) (r : nat)
    (ws ws' : Worksheet) :
  scan_row df_q1 df_q2 target_letters key_header_q2 q1_lookup
    q2_headers_by_letter q1_headers_by_letter max_col ws r = Ok ws' →
  ∀ r' c, r' ≠ r → ws_cell ws' r' c = ws_cell ws r' c.
Proof.
  unfold scan_row. destruct (rows df_q2 !! _) as [row2|]; [|by intros [= <-]].
  destruct (row_kind_of _ _) as [|q1_row|]; [| |by intros [= <-]].
  - intros [= <-] r' c Hr'. rewrite ws_cell_fill_new_row.
    rewrite bool_decide_false; [done|]. by intros [? _].
  - apply (for_each_invariant
             (λ ws1, ∀ r' c, r' ≠ r → ws_cell ws1 r' c = ws_cell ws r' c));
      [|done].
    intros ws1 L ws2 _ Hws1 Hstep r' c Hr'.
    rewrite (compare_letter_other_rows _ _ _ _ _ Hstep) by done. by apply Hws1.
Qed.

Lemma scan_rows_other_rows (target_letters : list string) (l : list nat)
    (r : nat) (ws ws' : Worksheet) :
  r ∉ l →
  for_each (scan_row df_q1 df_q2 target_letters key_header_q2 q1_lookup
              q2_headers_by_letter q1_headers_by_letter max_col) l ws = Ok ws' →
  ∀ c, ws_cell ws' r c = ws_cell ws r c.
Proof.
  intros Hr.
  apply (for_each_invariant (λ ws1, ∀ c, ws_cell ws1 r c = ws_cell ws r c));
    [|done].
  intros ws1 r' ws2 Hr' Hws1 Hstep c.
  rewrite (scan_row_other_rows _ _ _ _ Hstep) by (by intros ->). apply Hws1.
Qed.

Lemma scan_rows_ok (target_letters : list string) (n start : nat)
    (ws : Worksheet) :
  Forall (λ L, ∃ idx, column_index_from_string L = Ok idx) target_letters →
  NoDup (column_index_from_string <$> target_letters) →
  rows_plain_from start ws →
  ∃ ws', for_each (scan_row df_q1 df_q2 target_letters key_header_q2 q1_lookup
                     q2_headers_by_letter q1_headers_by_letter max_col)
           (seq start n) ws = Ok ws'.
Proof.
  intros Hvalid Hdup. revert start ws.
  induction n as [|n IH]; intros start ws Hplain; simpl; [by eexists|].
  assert (∃ ws1, scan_row df_q1 df_q2 target_letters key_header_q2 q1_lookup
                   q2_headers_by_letter q1_headers_by_letter max_col ws start
                 = Ok ws1 ∧ rows_plain_from (S start) ws1) as (ws1 & -> & Hws1).
  { unfold scan_row. destruct (rows df_q2 !! _) as [row2|].
    2:{ exists ws. split; [done|]. intros r' c ?. apply Hplain. lia. }
    destruct (row_kind_of _ _) as [|q1_row|].
    - eexists. split; [done|]. intros r' c ?. rewrite ws_cell_fill_new_row.
      case_bool_decide; [simpl|]; apply Hplain; lia.
    - destruct (compare_letters_ok q1_row start target_letters ws Hvalid Hdup)
        as (ws1 & Hrun & Hother & _).
      { intros L idx _ _. by apply Hplain. }
      exists ws1. split; [done|]. intros r' c ?.
      rewrite Hother by (left; lia). apply Hplain. lia.
    - exists ws. split; [done|]. intros r' c ?. apply Hplain. lia. }
  simpl. by apply IH.
Qed.

(** In the scan of rows [start], ..., [start + n - 1] of a sheet as loaded,
    a row whose key is in the baseline index has each cell under a selected
    letter highlighted once, from the baseline row of that key and the
    trimmed text the cell had. *)
Lemma scan_rows_compared_cell (target_letters : list string) (n start r : nat)
    (ws ws' : Worksheet) (row2 q1_row : Series) (L : string) (idx : nat) :
  Forall (λ L, ∃ idx, column_index_from_string L = Ok idx) target_letters →
  NoDup (column_index_from_string <$> target_letters) →
  (∀ c, is_plain (value (ws_cell ws r c))) →
  (start ≤ r < start + n)%nat →
  rows df_q2 !! (r - 2)%nat = Some row2 →
  q1_lookup !! key_of key_header_q2 row2 = Some q1_row →
  L ∈ target_letters → column_index_from_string L = Ok idx →
  for_each (scan_row df_q1 df_q2 target_letters key_header_q2 q1_lookup
              q2_headers_by_letter q1_headers_by_letter max_col)
    (seq start n) ws = Ok ws' →
  ∃ q2_val,
    to_str_cell (value (ws_cell ws r idx)) = Ok q2_val ∧
    ws_cell ws' r idx
    = highlight L (q1_val_of df_q1 q2_headers_by_letter q1_headers_by_letter
                     q1_row L)
        q2_val (ws_cell ws r idx).
Proof.
  intros Hvalid Hdup Hplain Hr Hrow Hlookup HL Hidx.
  replace n with ((r - start) + S (start + n - r - 1))%nat by lia.
  rewrite seq_app, for_each_app.
  replace (start + (r - start))%nat with r by lia.
  cbn [seq].
  destruct (for_each _ (seq start _) ws) as [ws1|e] eqn:Hbefore; [|by simpl].
  change (Ok ws1 ≫= ?f) with (f ws1). cbn beta. rewrite for_each_cons.
  assert (∀ c, ws_cell ws1 r c = ws_cell ws r c) as Hws1.
  { eapply scan_rows_other_rows; [|exact Hbefore].
    intros ?%elem_of_seq. lia. }
  assert (scan_row df_q1 df_q2 target_letters key_header_q2 q1_lookup
            q2_headers_by_letter q1_headers_by_letter max_col ws1 r
          = for_each (compare_letter df_q1 q2_headers_by_letter
                        q1_headers_by_letter q1_row r) target_letters ws1)
    as ->.
  { unfold scan_row. rewrite Hrow. unfold row_kind_of, is_new_project.
    rewrite Hlookup. rewrite (bool_decide_false (Some q1_row = None)) by done.
    by rewrite andb_false_r. }
  destruct (compare_letters_ok q1_row r target_letters ws1 Hvalid Hdup)
    as (ws2 & -> & _ & Hcells).
  { intros L' idx' _ _. rewrite Hws1. apply Hplain. }
  change (Ok ws2 ≫= ?f) with (f ws2). cbn beta. intros Hafter.
  destruct (Hcells L idx HL Hidx) as (q2_val & Hq & Hcell).
  rewrite Hws1 in Hq, Hcell. exists q2_val. split; [done|].
  rewrite <-Hcell. eapply scan_rows_other_rows; [|exact Hafter].
  intros ?%elem_of_seq. lia.
Qed.
End scan_succeeds.

(** X11. On a sheet as loaded, with at least one column letter, all letters valid
    and naming different columns, a non-empty header in column B and a key
    header that the First workbook has, the run returns an outcome. *)
Theorem run_succeeds (df_q1 df_q2 : DataFrame) (ws : Worksheet)
    (target_letters : list string) (key_header : string) :
  target_letters ≠ [] →
  Forall (λ L, ∃ idx, column_index_from_string L = Ok idx) target_letters →
  NoDup (column_index_from_string <$> target_letters) →
  rows_plain_from 1 ws →
  header_text (value (ws_cell ws 1 2)) ≠ "" →
  key_header_in_q1 df_q1 (header_text (value (ws_cell ws 1 2))) = Ok key_header →
  ∃ o, highlight_q2_changes df_q1 df_q2 ws target_letters = Ok o ∧
       key_header_q1 o = key_header ∧
       key_header_q2 o = header_text (value (ws_cell ws 1 2)).
Proof.
  intros Hletters Hvalid Hdup Hplain Hkey Hq1. unfold highlight_q2_changes.
  rewrite (bool_decide_false _ Hletters), header_from_letter_B. simpl.
  rewrite (bool_decide_false _ Hkey), Hq1. simpl.
  destruct (get_headers_for_letters_ok target_letters (ws_update id 1 2 ws) Hvalid)
    as (q2_headers & ws1 & Hh).
  rewrite Hh. simpl.
  edestruct (scan_rows_ok df_q1 df_q2 (header_text (value (ws_cell ws 1 2)))
               (build_lookup df_q1 key_header) q2_headers
               (find_matching_headers_in_q1 df_q1 q2_headers)
               (max_column ws1) target_letters (max_row ws1 - 1) 2 ws1 Hvalid Hdup)
    as (ws2 & Hscan).
  { intros r c ?. rewrite (get_headers_for_letters_cells _ _ _ _ Hh).
    rewrite ws_cell_touch. apply Hplain. lia. }
  unfold scan_rows. rewrite Hscan. simpl. by eexists.
Qed.

Lemma run_succeeds_witness :
  ∃ o, highlight_q2_changes q1_O q2_O ws_O ["O"] = Ok o ∧
       key_header_q1 o = "OB Main ID" ∧
       key_header_q2 o = header_text (value (ws_cell ws_O 1 2)).
Proof.
  apply (run_succeeds q1_O q2_O ws_O ["O"] "OB Main ID").
  - discriminate.
  - repeat constructor. by exists 15%nat.
  - apply NoDup_singleton.
  - intros r c _. unfold ws_cell.
    destruct (ws_O !! (r, c)) as [cell|] eqn:Hcell; [|exact I].
    apply (map_Forall_lookup_1 (λ _ cell, is_plain (value cell)) ws_O (r, c));
      [|exact Hcell].
    apply map_Forall_to_list. vm_compute. repeat constructor.
  - vm_compute. discriminate.
  - vm_compute. reflexivity.
Defined.

(** Two letters for one column: the second comparison reads the rich text
    the first one wrote, and [to_str] fails on its two blocks. *)
Example same_column_twice :
  ∃ msg, highlight_q2_changes q1_O q2_O ws_O ["O"; "o"] = Raise (ValueError msg).
Proof. eexists. vm_compute. reflexivity. Qed.

(** ** The scenarios of the specification *)

(** Scenarios A and B: the cell equal to the baseline is left alone, the
    cell emptied since the baseline is filled pink. *)
Example scenario_A_B :
  classify "Alpha" "Alpha" = Unchanged ∧ classify "Alpha" "" = Cleared ∧
  ∃ o, highlight_q2_changes q1_AB q2_AB ws_AB ["C"] = Ok o ∧
       ws_cell (saved o) 2 3 = plain "Alpha" ∧
       ws_cell (saved o) 3 3 = {| value := VNone; fill := cleared_fill |}.
Proof.
  split; [reflexivity|]. split; [reflexivity|].
  eexists. split; [vm_compute; reflexivity|]. split; vm_compute; reflexivity.
Qed.

(** Scenario E: no column letter. *)
Example scenario_E :
  ∃ msg, highlight_q2_changes q1_AB q2_AB ws_AB [] = Raise (ValueError msg).
Proof. by eexists. Qed.

(** A column name that is no column of a sheet stops the run before the
    scan as well. *)
Example invalid_letter :
  highlight_q2_changes q1_AB q2_AB ws_AB ["C"; "C3"]
  = Raise (ValueError "C3 is not a valid column name").
Proof. vm_compute. reflexivity. Qed.

(** * Further properties of [Compare.py] *)

(** ** Stripping *)

Section strip_by.
Variable p : ascii → bool.

Lemma lstrip_by_starts s : starts_with_by p (Py.lstrip_by p s) = false.
Proof.
  induction s as [|c s IH]; [done|]. simpl.
  destruct (p c) eqn:Hc; [done|]. simpl. done.
Qed.

Lemma lstrip_by_id s : starts_with_by p s = false → Py.lstrip_by p s = s.
Proof. destruct s; simpl; [done|]. by intros ->. Qed.

Lemma rstrip_by_cons c t :
  Py.rstrip_by p (String c t)
  = if (Py.rstrip_by p t =? "")%string && p c then ""
    else String c (Py.rstrip_by p t).
Proof. simpl. destruct (Py.rstrip_by p t); simpl; [by destruct (p c)|done]. Qed.

Lemma rstrip_by_ends s : ends_with_by p (Py.rstrip_by p s) = false.
Proof.
  induction s as [|c s IH]; [done|]. rewrite rstrip_by_cons.
  destruct (Py.rstrip_by p s) as [|c' t] eqn:Ht; simpl.
  - destruct (p c) eqn:Hc; simpl; done.
  - simpl in IH. done.
Qed.

Lemma rstrip_by_id s : ends_with_by p s = false → Py.rstrip_by p s = s.
Proof.
  induction s as [|c s IH]; [done|]. intros Hend. rewrite rstrip_by_cons.
  destruct s as [|c' s].
  - simpl in *. by rewrite Hend.
  - rewrite IH by done. done.
Qed.

Lemma rstrip_by_starts s :
  starts_with_by p s = false → starts_with_by p (Py.rstrip_by p s) = false.
Proof.
  destruct s as [|c s]; [done|]. simpl starts_with_by at 1. intros Hc.
  rewrite rstrip_by_cons, Hc, andb_false_r. done.
Qed.

Lemma strip_by_ends s :
  starts_with_by p (Py.strip_by p s) = false ∧
  ends_with_by p (Py.strip_by p s) = false.
Proof.
  unfold Py.strip_by. split; [|apply rstrip_by_ends].
  apply rstrip_by_starts, lstrip_by_starts.
Qed.

Lemma strip_by_id s :
  starts_with_by p s = false → ends_with_by p s = false → Py.strip_by p s = s.
Proof.
  intros Hs He. unfold Py.strip_by. rewrite lstrip_by_id by done.
  by apply rstrip_by_id.
Qed.

Lemma strip_by_idemp s : Py.strip_by p (Py.strip_by p s) = Py.strip_by p s.
Proof. apply strip_by_id; apply strip_by_ends. Qed.

Lemma string_forall_lstrip q s :
  string_forall q s = true → string_forall q (Py.lstrip_by p s) = true.
Proof.
  induction s as [|c s IH]; [done|]. simpl. intros [? ?]%andb_true_iff.
  destruct (p c); [auto|]. simpl. by apply andb_true_iff.
Qed.

Lemma string_forall_rstrip q s :
  string_forall q s = true → string_forall q (Py.rstrip_by p s) = true.
Proof.
  induction s as [|c s IH]; [done|]. simpl string_forall at 1.
  intros [? ?]%andb_true_iff. rewrite rstrip_by_cons.
  destruct (_ && _); [done|]. simpl. apply andb_true_iff. auto.
Qed.

Lemma no_double_lstrip q s :
  no_double q s = true → no_double q (Py.lstrip_by p s) = true.
Proof.
  induction s as [|c s IH]; [done|]. intros Hd. simpl.
  destruct (p c); [|done]. apply IH. destruct s; [done|].
  simpl in Hd. by apply andb_true_iff in Hd as [_ ?].
Qed.

Lemma no_double_rstrip q s :
  no_double q s = true → no_double q (Py.rstrip_by p s) = true.
Proof.
  induction s as [|c s IH]; [done|]. intros Hd. rewrite rstrip_by_cons.
  destruct (_ && _); [done|].
  destruct s as [|c' s]; [done|].
  simpl in Hd. apply andb_true_iff in Hd as [Hcc Hd].
  specialize (IH Hd). rewrite rstrip_by_cons in IH |- *.
  destruct (_ && _); [done|]. simpl. simpl in IH. rewrite Hcc. done.
Qed.
End strip_by.

(** ** Replacing runs of a class by one character *)

Lemma no_double_cons2 (p : ascii → bool) c1 c2 s :
  no_double p (String c1 (String c2 s))
  = negb (p c1 && p c2) && no_double p (String c2 s).
Proof. reflexivity. Qed.

Section sub_runs.
Variables (p : ascii → bool) (r : ascii).
Hypothesis Hr : p r = true.

Lemma sub_runs_cons_keep c s :
  p c = false →
  Py.sub_runs p (String r "") (String c s)
  = String c (Py.sub_runs p (String r "") s).
Proof. simpl. by intros ->. Qed.

Lemma sub_runs_starts s :
  starts_with_by p (Py.sub_runs p (String r "") s) = starts_with_by p s.
Proof.
  induction s as [|c s IH]; [done|]. simpl.
  destruct (p c) eqn:Hc; [|by simpl].
  destruct s as [|c' s]; [by simpl|].
  destruct (p c') eqn:Hc'; [|by simpl].
  rewrite IH. by simpl.
Qed.

(** What is left of the class after the replacement is the replacement
    character. *)
Lemma sub_runs_forall s :
  string_forall (λ c, negb (p c) || bool_decide (c = r))
    (Py.sub_runs p (String r "") s) = true.
Proof.
  induction s as [|c s IH]; [done|]. simpl.
  destruct (p c) eqn:Hc.
  - destruct s as [|c' s].
    + simpl. by rewrite bool_decide_true, orb_true_r.
    + destruct (p c'); [done|].
      change (String r "" ++ ?t) with (String r t).
      simpl string_forall. by rewrite bool_decide_true, orb_true_r.
  - simpl. by rewrite Hc.
Qed.

Lemma sub_runs_no_double s :
  no_double p (Py.sub_runs p (String r "") s) = true.
Proof.
  induction s as [|c s IH]; [done|].
  destruct (p c) eqn:Hc.
  - simpl. rewrite Hc. destruct s as [|c' s]; [done|].
    destruct (p c') eqn:Hc'; [done|].
    change (String r "" ++ ?t) with (String r t).
    rewrite sub_runs_cons_keep in IH |- * by done.
    by rewrite no_double_cons2, Hc', andb_false_r, IH.
  - rewrite sub_runs_cons_keep by done.
    destruct (Py.sub_runs p (String r "") s) as [|c2 t] eqn:Ht; [done|].
    by rewrite no_double_cons2, Hc, IH.
Qed.

(** A string in which the class only occurs as single copies of the
    replacement character is left as it is. *)
Lemma sub_runs_id s :
  string_forall (λ c, negb (p c) || bool_decide (c = r)) s = true →
  no_double p s = true →
  Py.sub_runs p (String r "") s = s.
Proof.
  induction s as [|c s IH]; [done|]. simpl string_forall.
  intros [Hc Hall]%andb_true_iff Hd.
  assert (no_double p s = true) as Hd'.
  { destruct s; [done|]. rewrite no_double_cons2 in Hd.
    by apply andb_true_iff in Hd as [_ ?]. }
  simpl. destruct (p c) eqn:Hpc.
  - simpl in Hc. apply bool_decide_eq_true in Hc as ->.
    destruct s as [|c' s]; [done|].
    rewrite no_double_cons2, Hr in Hd. simpl in Hd.
    apply andb_true_iff in Hd as [Hc' _]. apply negb_true_iff in Hc'.
    rewrite Hc'. change (String r "" ++ ?t) with (String r t).
    by rewrite IH.
  - by rewrite IH.
Qed.
End sub_runs.

Lemma sub_runs_none p rep s :
  string_forall (λ c, negb (p c)) s = true → Py.sub_runs p rep s = s.
Proof.
  induction s as [|c s IH]; [done|]. simpl.
  intros [Hc Hall]%andb_true_iff. apply negb_true_iff in Hc.
  by rewrite Hc, IH.
Qed.

Lemma string_forall_impl (p q : ascii → bool) s :
  (∀ c, p c = true → q c = true) →
  string_forall p s = true → string_forall q s = true.
Proof.
  intros Hpq. induction s as [|c s IH]; [done|]. simpl.
  intros [? ?]%andb_true_iff. apply andb_true_iff. auto.
Qed.

Lemma no_double_impl (p q : ascii → bool) s :
  (∀ c, q c = true → p c = true) →
  no_double p s = true → no_double q s = true.
Proof.
  intros Hqp. induction s as [|c s IH]; [done|].
  destruct s as [|c' s]; [done|]. rewrite !no_double_cons2.
  intros [Hcc Hd]%andb_true_iff. apply andb_true_iff. split; [|auto].
  apply negb_true_iff. apply negb_true_iff in Hcc.
  apply andb_false_iff in Hcc as [Hc|Hc]; apply andb_false_iff.
  - left. destruct (q c) eqn:Hq; [|done]. by rewrite (Hqp _ Hq) in Hc.
  - right. destruct (q c') eqn:Hq; [|done]. by rewrite (Hqp _ Hq) in Hc.
Qed.

Lemma string_forall_starts (p q : ascii → bool) s :
  (∀ c, p c = true → q c = false) →
  string_forall p s = true → starts_with_by q s = false.
Proof.
  intros Hpq. destruct s as [|c s]; [done|]. simpl.
  intros [? _]%andb_true_iff. auto.
Qed.

Lemma string_forall_ends (p q : ascii → bool) s :
  (∀ c, p c = true → q c = false) →
  string_forall p s = true → ends_with_by q s = false.
Proof.
  intros Hpq. induction s as [|c s IH]; [done|]. simpl string_forall.
  intros [Hc Hall]%andb_true_iff. destruct s as [|c' s]; simpl; auto.
Qed.

(** ** [normalize_colname] *)

Lemma no_double_impl_on (allowed p q : ascii → bool) s :
  (∀ c, allowed c = true → q c = true → p c = true) →
  string_forall allowed s = true →
  no_double p s = true → no_double q s = true.
Proof.
  intros Hqp. induction s as [|c s IH]; [done|].
  destruct s as [|c' s]; [done|]. rewrite !no_double_cons2.
  simpl string_forall. intros [Hc [Hc' Hall]%andb_true_iff]%andb_true_iff.
  intros [Hcc Hd]%andb_true_iff. apply andb_true_iff. split.
  - apply negb_true_iff. apply negb_true_iff in Hcc.
    apply andb_false_iff in Hcc as [H|H]; apply andb_false_iff.
    + left. destruct (q c) eqn:Hq; [|done]. by rewrite (Hqp _ Hc Hq) in H.
    + right. destruct (q c') eqn:Hq; [|done]. by rewrite (Hqp _ Hc' Hq) in H.
  - apply IH; [|done]. simpl. by rewrite Hc'.
Qed.

Lemma is_underscore_char c : is_underscore c = true → c = "_"%char.
Proof. destruct c as [[] [] [] [] [] [] [] []]; done. Qed.

Lemma normal_char_not_space c :
  is_lower_alnum c || is_underscore c = true → Py.isspace c = false.
Proof. destruct c as [[] [] [] [] [] [] [] []]; done. Qed.

Lemma normal_char_lower c :
  is_lower_alnum c || is_underscore c = true → Py.lower_char c = c.
Proof. destruct c as [[] [] [] [] [] [] [] []]; done. Qed.

Lemma underscore_not_alnum c :
  is_underscore c = true → negb (is_lower_alnum c) = true.
Proof. destruct c as [[] [] [] [] [] [] [] []]; done. Qed.

Lemma lower_char_space c : Py.isspace (Py.lower_char c) = Py.isspace c.
Proof. destruct c as [[] [] [] [] [] [] [] []]; reflexivity. Qed.

Lemma lower_char_idemp c : Py.lower_char (Py.lower_char c) = Py.lower_char c.
Proof. destruct c as [[] [] [] [] [] [] [] []]; reflexivity. Qed.

Lemma lower_id (q : ascii → bool) s :
  (∀ c, q c = true → Py.lower_char c = c) →
  string_forall q s = true → Py.lower s = s.
Proof.
  intros Hq. induction s as [|c s IH]; [done|]. simpl.
  intros [Hc Hall]%andb_true_iff. by rewrite (Hq _ Hc), IH.
Qed.

Lemma lower_idemp s : Py.lower (Py.lower s) = Py.lower s.
Proof. induction s as [|c s IH]; [done|]. simpl. by rewrite lower_char_idemp, IH. Qed.

Lemma lower_lstrip s :
  Py.lstrip_by Py.isspace (Py.lower s) = Py.lower (Py.lstrip_by Py.isspace s).
Proof.
  induction s as [|c s IH]; [done|]. simpl. rewrite lower_char_space.
  by destruct (Py.isspace c).
Qed.

Lemma lower_rstrip s :
  Py.rstrip_by Py.isspace (Py.lower s) = Py.lower (Py.rstrip_by Py.isspace s).
Proof.
  induction s as [|c s IH]; [done|].
  change (Py.lower (String c s)) with (String (Py.lower_char c) (Py.lower s)).
  rewrite !rstrip_by_cons, IH, lower_char_space.
  destruct (Py.rstrip_by Py.isspace s); simpl; [by destruct (Py.isspace c)|done].
Qed.

Lemma sub_runs_cons2 p rep c c' s :
  Py.sub_runs p rep (String c (String c' s))
  = if p c then
      if p c' then Py.sub_runs p rep (String c' s)
      else rep ++ Py.sub_runs p rep (String c' s)
    else String c (Py.sub_runs p rep (String c' s)).
Proof. reflexivity. Qed.

Lemma lower_collapse s :
  Py.sub_runs Py.isspace " " (Py.lower s)
  = Py.lower (Py.sub_runs Py.isspace " " s).
Proof.
  induction s as [|c s IH]; [done|]. destruct s as [|c' s].
  - simpl. rewrite lower_char_space. by destruct (Py.isspace c).
  - change (Py.lower (String c (String c' s)))
      with (String (Py.lower_char c) (String (Py.lower_char c') (Py.lower s))).
    change (Py.lower (String c' s))
      with (String (Py.lower_char c') (Py.lower s)) in IH.
    rewrite !sub_runs_cons2, !lower_char_space, IH.
    destruct (Py.isspace c), (Py.isspace c'); reflexivity.
Qed.

Lemma normalize_colname_shape (name : string) :
  is_normalized (normalize_colname name).
Proof.
  unfold normalize_colname, is_normalized.
  set (s := Py.lower _).
  set (p := λ c, negb (is_lower_alnum c)).
  pose proof (sub_runs_forall p "_"%char s) as Hall.
  pose proof (sub_runs_no_double p "_"%char s) as Hd.
  change (String "_" "") with "_" in Hall, Hd.
  generalize dependent (Py.sub_runs p "_" s). intros t Hall Hd.
  split_and!.
  - unfold Py.strip_by. apply string_forall_rstrip, string_forall_lstrip.
    eapply string_forall_impl; [|exact Hall].
    intros c. unfold p. rewrite negb_involutive.
    intros [H|H%bool_decide_eq_true]%orb_true_iff; [by rewrite H|].
    by rewrite H.
  - apply strip_by_ends.
  - apply strip_by_ends.
  - unfold Py.strip_by. apply no_double_rstrip, no_double_lstrip.
    eapply no_double_impl; [|exact Hd]. apply underscore_not_alnum.
Qed.

Lemma normalize_colname_fixes (s : string) :
  is_normalized s → normalize_colname s = s.
Proof.
  intros (Hall & Hstart & Hend & Hd). unfold normalize_colname.
  rewrite (sub_runs_none Py.isspace " " s).
  2:{ eapply string_forall_impl; [|exact Hall].
      intros c Hc. by rewrite (normal_char_not_space c Hc). }
  unfold Py.strip. rewrite (strip_by_id Py.isspace s).
  2:{ eapply string_forall_starts; [|exact Hall]. apply normal_char_not_space. }
  2:{ eapply string_forall_ends; [|exact Hall]. apply normal_char_not_space. }
  rewrite (lower_id _ s normal_char_lower Hall).
  change "_" with (String "_"%char "").
  rewrite sub_runs_id; [by apply strip_by_id|done| |].
  - eapply string_forall_impl; [|exact Hall].
    intros c. rewrite negb_involutive.
    intros [H|H%is_underscore_char]%orb_true_iff; [by rewrite H|].
    rewrite H. by rewrite bool_decide_true, orb_true_r.
  - eapply no_double_impl_on; [|exact Hall|exact Hd].
    intros c Hc Hn. cbn beta in Hc. apply negb_true_iff in Hn.
    by rewrite Hn in Hc.
Qed.

(** X1. A normalized name holds lower-case letters, digits and underscores
    only, with no underscore at either end and no two underscores in a
    row. *)
Theorem normalize_colname_normalized (name : string) :
  string_forall (λ c, is_lower_alnum c || is_underscore c)
    (normalize_colname name) = true ∧
  starts_with_by is_underscore (normalize_colname name) = false ∧
  ends_with_by is_underscore (normalize_colname name) = false ∧
  no_double is_underscore (normalize_colname name) = true.
Proof. apply normalize_colname_shape. Qed.

(** X2. Normalizing a name twice is normalizing it once; and a name is its own
    normalized form exactly when it is built as a normalized name is. *)
Theorem normalize_colname_idempotent (name : string) :
  normalize_colname (normalize_colname name) = normalize_colname name ∧
  (normalize_colname name = name ↔ is_normalized name).
Proof.
  split.
  - apply normalize_colname_fixes, normalize_colname_shape.
  - split; [|apply normalize_colname_fixes].
    intros <-. apply normalize_colname_shape.
Qed.

(** X3. Names that differ only in the case of their letters have the same
    normalized form. *)
Theorem normalize_colname_case (s t : string) :
  Py.lower s = Py.lower t → normalize_colname s = normalize_colname t.
Proof.
  assert (∀ u, normalize_colname u = normalize_colname (Py.lower u)) as Hlow.
  { intros u. unfold normalize_colname, Py.strip, Py.strip_by.
    by rewrite lower_collapse, lower_lstrip, lower_rstrip, lower_idemp. }
  intros Heq. by rewrite (Hlow s), (Hlow t), Heq.
Qed.

Lemma normalize_colname_case_witness :
  normalize_colname "OB Main ID" = normalize_colname "ob main id".
Proof. apply normalize_colname_case. reflexivity. Defined.

(** ** [to_str] and the keys of the two workbooks *)

(** X4. What [to_str] returns has no whitespace at either end, and passing it
    through [to_str] again gives it back. *)
Theorem to_str_trimmed (x : option string) :
  starts_with_by Py.isspace (to_str x) = false ∧
  ends_with_by Py.isspace (to_str x) = false ∧
  to_str (Some (to_str x)) = to_str x.
Proof.
  destruct x as [s|]; [|done]. simpl. unfold Py.strip. split_and!.
  - apply strip_by_ends.
  - apply strip_by_ends.
  - apply strip_by_idemp.
Qed.

Lemma row_kind_Existing (q1_lookup : gmap string Series) (key_val : string)
    (q1_row : Series) :
  row_kind_of q1_lookup key_val = Existing q1_row ↔
  q1_lookup !! key_val = Some q1_row.
Proof.
  unfold row_kind_of, is_new_project.
  destruct (q1_lookup !! key_val) eqn:Hk;
    repeat case_bool_decide; simpl; intuition congruence.
Qed.

(** X5. A row of the Second workbook is compared exactly when its key is not
    empty and some row of the First workbook has the same trimmed key; the
    row it is compared with is the last such row. *)
Theorem row_compared_iff (df_q1 : DataFrame) (key_header_q1 key_val : string)
    (Hin : key_header_q1 ∈ columns df_q1) :
  ((∃ q1_row, row_kind_of (build_lookup df_q1 key_header_q1) key_val
              = Existing q1_row) ↔
   key_val ≠ "" ∧
   ∃ row1, row1 ∈ rows df_q1 ∧ key_of key_header_q1 row1 = key_val) ∧
  (∀ q1_row,
     row_kind_of (build_lookup df_q1 key_header_q1) key_val = Existing q1_row →
     ∃ pre post, rows df_q1 = (pre ++ q1_row :: post)%list ∧
                 key_of key_header_q1 q1_row = key_val ∧
                 ∀ row', row' ∈ post → key_of key_header_q1 row' ≠ key_val).
Proof.
  set (key := λ row, if bool_decide (key_of key_header_q1 row ≠ "")
                     then Some (key_of key_header_q1 row) else None).
  assert (∀ q1_row,
            row_kind_of (build_lookup df_q1 key_header_q1) key_val
            = Existing q1_row ↔
            last_with_key key (rows df_q1) key_val q1_row) as Hkind.
  { intros q1_row. rewrite row_kind_Existing, build_lookup_index by done.
    rewrite index_lookup_Some. fold key. split.
    - by intros (x & Hx & <-).
    - intros Hx. by exists q1_row. }
  assert (∀ row, key row = Some key_val ↔
                 key_val ≠ "" ∧ key_of key_header_q1 row = key_val) as Hkey.
  { intros row. unfold key. case_bool_decide; split.
    - by intros [= <-].
    - by intros [_ ->].
    - done.
    - intros [? <-]. done. }
  split; [split|].
  - intros (q1_row & (pre & post & Heq & Hk & _)%Hkind).
    apply Hkey in Hk as [? ?]. split; [done|]. exists q1_row. split; [|done].
    rewrite Heq. apply elem_of_app. right. apply list_elem_of_here.
  - intros (Hne & row1 & Hrow1 & Hk1).
    destruct (build_lookup df_q1 key_header_q1 !! key_val) as [q1_row|] eqn:Hl.
    + exists q1_row. by apply row_kind_Existing.
    + rewrite build_lookup_index in Hl by done.
      eapply index_lookup_None in Hl; [|exact Hrow1].
      destruct Hl. by apply Hkey.
  - intros q1_row (pre & post & Heq & Hk & Hpost)%Hkind.
    apply Hkey in Hk as [? ?]. exists pre, post. split_and!; [done..|].
    intros row' Hrow' Hk'. apply (Hpost row' Hrow'). by apply Hkey.
Qed.

Lemma row_compared_iff_witness :
  ∃ q1_row, row_kind_of (build_lookup q1_dup "OB Main ID") "7"
            = Existing q1_row.
Proof.
  apply (row_compared_iff q1_dup "OB Main ID" "7").
  - apply list_elem_of_here.
  - split; [discriminate|].
    exists (series [("OB Main ID", " 7 "); ("Status", "first")]).
    split; [apply list_elem_of_here|]. vm_compute. reflexivity.
Defined.

Lemma key_header_in_q1_inv (df_q1 : DataFrame) (key c : string) :
  key_header_in_q1 df_q1 key = Ok c →
  c ∈ columns df_q1 ∧
  (c = key ∨
   ((key ∉ columns df_q1) ∧ normalize_colname c = normalize_colname key)).
Proof.
  unfold key_header_in_q1.
  case_bool_decide as Hin; [intros [= <-]; by split; [|left]|].
  rewrite norm_map_index.
  destruct ((foldl _ _ _) !! _) as [c'|] eqn:Hm; [|done].
  intros [= <-].
  apply index_lookup_Some in Hm as (x & (pre & post & Heq & Hx & _) & <-).
  simpl. split.
  - rewrite Heq. apply elem_of_app. right. apply list_elem_of_here.
  - right. split; [done|]. congruence.
Qed.

(** ** Words: [split] against [join], and the fonts of a word diff *)

Lemma split_cons_token c s :
  Py.isspace c = false →
  Py.split (String c s)
  = match s with
    | "" => [String c ""]
    | String c' _ =>
        if Py.isspace c' then String c "" :: Py.split s
        else match Py.split s with
             | t :: ts => String c t :: ts
             | [] => [String c ""]
             end
    end.
Proof.
  intros Hc. simpl. rewrite Hc. destruct s as [|c' s]; [done|].
  destruct (Py.split (String c' s)); by destruct (Py.isspace c').
Qed.

Lemma split_tokens_no_space s :
  Forall (λ t, string_forall (λ c, negb (Py.isspace c)) t = true) (Py.split s).
Proof.
  induction s as [|c s IH]; [constructor|].
  destruct (Py.isspace c) eqn:Hc; [simpl; by rewrite Hc|].
  rewrite split_cons_token by done.
  assert (string_forall (λ c, negb (Py.isspace c)) (String c "") = true) as H1
    by (simpl; by rewrite Hc).
  destruct s as [|c' s]; [by repeat constructor|].
  destruct (Py.isspace c'); [by constructor|].
  destruct (Py.split (String c' s)) as [|t ts]; [by repeat constructor|].
  inversion_clear IH. constructor; [|done]. simpl. by rewrite Hc.
Qed.

Lemma split_all_space s :
  Py.split s = [] ↔ string_forall Py.isspace s = true.
Proof.
  induction s as [|c s IH]; [done|]. simpl.
  destruct (Py.isspace c) eqn:Hc; [done|]. simpl. split; [|done].
  destruct (Py.split s); [done|]. destruct s as [|c' s]; [done|].
  by destruct (Py.isspace c').
Qed.

Lemma strip_all_space s :
  Py.strip s = "" ↔ string_forall Py.isspace s = true.
Proof.
  unfold Py.strip, Py.strip_by. induction s as [|c s IH]; [done|]. simpl.
  destruct (Py.isspace c) eqn:Hc; [done|]. simpl. split; [|done].
  destruct (Py.rstrip_by Py.isspace s); [by rewrite Hc|done].
Qed.

(** A word kept as it is by [split]. *)
Lemma split_one_token t :
  t ≠ "" → string_forall (λ c, negb (Py.isspace c)) t = true →
  Py.split t = [t].
Proof.
  induction t as [|c t IH]; [done|]. intros _. simpl string_forall.
  intros [Hc%negb_true_iff Hall]%andb_true_iff.
  rewrite split_cons_token by done. destruct t as [|c' t]; [done|].
  rewrite IH by done. simpl in Hall.
  apply andb_true_iff in Hall as [Hc'%negb_true_iff _]. by rewrite Hc'.
Qed.

Lemma split_token_space t u :
  t ≠ "" → string_forall (λ c, negb (Py.isspace c)) t = true →
  Py.split (t ++ String " " u) = t :: Py.split u.
Proof.
  induction t as [|c t IH]; [done|]. intros _. simpl string_forall.
  intros [Hc%negb_true_iff Hall]%andb_true_iff.
  change (String c t ++ ?v) with (String c (t ++ v)).
  rewrite split_cons_token by done. destruct t as [|c' t].
  - change ("" ++ ?v) with v. cbv iota beta.
    change (Py.isspace " ") with true. cbv iota. done.
  - change (String c' t ++ ?v) with (String c' (t ++ v)) in *. cbv iota beta.
    rewrite IH by done. simpl in Hall.
    apply andb_true_iff in Hall as [Hc'%negb_true_iff _]. by rewrite Hc'.
Qed.

Lemma split_join (l : list string) :
  Forall (λ t, t ≠ "") l →
  Forall (λ t, string_forall (λ c, negb (Py.isspace c)) t = true) l →
  Py.split (Py.join " " l) = l.
Proof.
  induction l as [|t l IH]; [done|].
  intros [Ht Hl]%Forall_cons [Ht' Hl']%Forall_cons.
  destruct l as [|t2 l]; [by apply split_one_token|].
  change (Py.join " " (t :: t2 :: l)) with (t ++ String " " (Py.join " " (t2 :: l))).
  rewrite split_token_space by done. by rewrite IH.
Qed.

(** X8. The text of a word diff has the words of the current text, in their
    order: rewriting the cell changes its spacing at most. *)
Theorem word_diff_same_words (old_text new_text : string) :
  Py.split (rich_str (word_diff old_text new_text)) = Py.split new_text.
Proof.
  unfold word_diff.
  rewrite (rich_str_blocks _ _ _ 0) by done.
  apply split_join; [apply split_tokens_nonempty|apply split_tokens_no_space].
Qed.

(** X9. No block is written exactly when the current text is empty or blank. *)
Theorem word_diff_nil_iff (old_text new_text : string) :
  word_diff old_text new_text = [] ↔ Py.strip new_text = "".
Proof.
  rewrite strip_all_space, <-split_all_space. unfold word_diff. split.
  - intros H. apply (f_equal length) in H. rewrite length_imap in H.
    by destruct (Py.split new_text).
  - by intros ->.
Qed.

Lemma prefix_lookup_iff {A} (l1 l2 : list A) :
  l1 `prefix_of` l2 ↔ ∀ i x, l1 !! i = Some x → l2 !! i = Some x.
Proof.
  split; [intros H i x Hi; by apply (prefix_lookup_Some l1)|].
  revert l2. induction l1 as [|x l1 IH]; intros l2 H; [apply prefix_nil|].
  destruct l2 as [|y l2]; [by specialize (H 0%nat x eq_refl)|].
  specialize (H 0%nat x eq_refl) as Hx. simplify_eq/=.
  apply prefix_cons, IH. intros i z Hi. apply (H (S i) z Hi).
Qed.

(** X10. No word of a word diff is red exactly when the words of the current
    text are the first words of the baseline text: words dropped at the end
    of a text, or a change of spacing alone, are shown by the fill only. *)
Theorem word_diff_no_red_iff (old_text new_text : string) :
  (∀ b, b ∈ word_diff old_text new_text → font b = font_default) ↔
  Py.split new_text `prefix_of` Py.split old_text.
Proof.
  rewrite prefix_lookup_iff. unfold word_diff. split.
  - intros H i t Hi.
    specialize (H (word_diff_block (Py.split old_text) (Py.split new_text) i t)).
    unfold word_diff_block in H at 2. simpl in H.
    destruct (decide (Py.split old_text !! i = Some t)) as [|Hne]; [done|].
    rewrite (bool_decide_false _ Hne), andb_false_r in H.
    discriminate H. by apply elem_of_lookup_imap_2.
  - intros H b (i & t & -> & Hi)%elem_of_lookup_imap.
    unfold word_diff_block. simpl.
    pose proof (H i t Hi) as Ho.
    rewrite (bool_decide_true _ Ho).
    rewrite bool_decide_true; [done|]. by eapply lookup_lt_Some.
Qed.

(** ** The headers of the selected columns *)

Lemma find_matching_lookup (df_q1 : DataFrame) (q2_headers : gmap string string)
    (L : string) :
  find_matching_headers_in_q1 df_q1 q2_headers !! L
  = q1_header_for df_q1 <$> q2_headers !! L.
Proof. unfold find_matching_headers_in_q1. by rewrite lookup_fmap. Qed.

Lemma q1_header_for_cases (df_q1 : DataFrame) (h : string) :
  (h ∈ columns df_q1 ∧ q1_header_for df_q1 h = h) ∨
  ((h ∉ columns df_q1) ∧
   last_with_key (λ c, Some (normalize_colname c)) (columns df_q1)
     (normalize_colname h) (q1_header_for df_q1 h)) ∨
  ((h ∉ columns df_q1) ∧
   (∀ c, c ∈ columns df_q1 → normalize_colname c ≠ normalize_colname h) ∧
   q1_header_for df_q1 h = h).
Proof.
  unfold q1_header_for. case_bool_decide as Hin; [by left|right].
  rewrite norm_map_index.
  destruct ((foldl _ _ _) !! _) as [c|] eqn:Hm; simpl.
  - left. split; [done|].
    by apply index_lookup_Some in Hm as (x & Hx & <-).
  - right. split_and!; [done| |done]. intros c Hc.
    eapply index_lookup_None in Hm; [|exact Hc]. congruence.
Qed.

(** X6. For each letter, the header kept for the First workbook is the header
    of the Second workbook itself when the First workbook has that column,
    even if another column has the same normalized name; else it is the
    last column of the First workbook with the same normalized name; else,
    when no column of the First workbook has that normalized name, it is
    the header itself. It always has the normalized name of the header, and
    it is a column of the First workbook exactly when some column there has
    that normalized name. *)
Theorem find_matching_headers_spec (df_q1 : DataFrame)
    (q2_headers : gmap string string) (L h : string)
    (Hq2 : q2_headers !! L = Some h) :
  ∃ h1, find_matching_headers_in_q1 df_q1 q2_headers !! L = Some h1 ∧
        (h ∈ columns df_q1 → h1 = h) ∧
        (h ∉ columns df_q1 →
         (∃ c, c ∈ columns df_q1 ∧ normalize_colname c = normalize_colname h) →
         last_with_key (λ c, Some (normalize_colname c)) (columns df_q1)
           (normalize_colname h) h1) ∧
        ((∀ c, c ∈ columns df_q1 → normalize_colname c ≠ normalize_colname h) →
         h1 = h) ∧
        normalize_colname h1 = normalize_colname h ∧
        (h1 ∈ columns df_q1 ↔
         ∃ c, c ∈ columns df_q1 ∧ normalize_colname c = normalize_colname h).
Proof.
  exists (q1_header_for df_q1 h). rewrite find_matching_lookup, Hq2.
  split; [done|].
  destruct (q1_header_for_cases df_q1 h)
    as [[Hin ->]|[[Hnin Hlast]|(Hnin & Hnone & ->)]].
  - split_and!; [done|done|done|done|]. split; [by exists h|done].
  - destruct Hlast as (pre & post & Heq & Hn & Hpost).
    assert (q1_header_for df_q1 h ∈ columns df_q1) as Hcol.
    { rewrite Heq. apply elem_of_app. right. apply list_elem_of_here. }
    split_and!; [done| | |congruence|].
    + intros _ _. by exists pre, post.
    + intros Hnone. destruct (Hnone _ Hcol). congruence.
    + split; [|done]. intros _. eexists. split; [exact Hcol|congruence].
  - split_and!; [done| |done|done|].
    + intros _ (c & Hc & Hn). by destruct (Hnone c).
    + split; [done|]. intros (c & Hc & Hn). by destruct (Hnone c).
Qed.

Lemma find_matching_headers_spec_witness :
  let q2_headers := {["C" := "Status"]} : gmap string string in
  ∃ h1, find_matching_headers_in_q1 q1_two q2_headers !! "C" = Some h1 ∧
        h1 = "Status".
Proof.
  intros q2_headers.
  destruct (find_matching_headers_spec q1_two q2_headers "C" "Status"
              (lookup_singleton_eq "C" "Status")) as (h1 & Hm & Hexact & _).
  exists h1. split; [exact Hm|]. apply Hexact.
  apply list_elem_of_further, list_elem_of_here.
Defined.

Lemma get_headers_raise_loop (pre post : list string) (L : string) (e : exn)
    (acc : gmap string string * Worksheet) :
  Forall valid_letter pre →
  column_index_from_string L = Raise e →
  for_each get_header (pre ++ L :: post)%list acc = Raise e.
Proof.
  intros Hpre HL. revert acc.
  induction Hpre as [|L' pre [idx Hidx] _ IH]; intros [header_map ws].
  - simpl app. rewrite for_each_cons. by rewrite (get_header_Raise _ _ _ _ HL).
  - simpl app. rewrite for_each_cons, (get_header_Ok _ _ _ _ Hidx).
    change (Ok ?x ≫= ?f) with (f x). cbn beta. apply IH.
Qed.

Lemma valid_or_first_invalid (letters : list string) :
  Forall valid_letter letters ∨
  ∃ pre L post e, letters = (pre ++ L :: post)%list ∧
                  Forall valid_letter pre ∧
                  column_index_from_string L = Raise e.
Proof.
  induction letters as [|L letters IH]; [by left|].
  destruct (column_index_from_string L) as [idx|e] eqn:HL.
  - destruct IH as [Hall|(pre & L' & post & e & -> & Hpre & HL')].
    + left. constructor; [by exists idx|done].
    + right. exists (L :: pre), L', post, e. split_and!; [done| |done].
      constructor; [by exists idx|done].
  - right. by exists [], L, letters, e.
Qed.

(** X7. The headers are read for all the letters or for none: with every letter
    valid the map has exactly the letters as keys, each with the header text
    of its column in row 1, and no cell of the sheet has changed; else the
    error of the first invalid letter is raised. *)
Theorem get_headers_for_letters_spec (ws : Worksheet) (letters : list string) :
  (Forall valid_letter letters ∧
   ∃ header_map ws',
     get_headers_for_letters ws letters = Ok (header_map, ws') ∧
     (∀ r c, ws_cell ws' r c = ws_cell ws r c) ∧
     (∀ L, L ∈ letters →
           ∃ idx, column_index_from_string L = Ok idx ∧
                  header_map !! L = Some (header_text (value (ws_cell ws 1 idx)))) ∧
     (∀ L, L ∉ letters → header_map !! L = None)) ∨
  (∃ pre L post e,
     letters = (pre ++ L :: post)%list ∧ Forall valid_letter pre ∧
     column_index_from_string L = Raise e ∧
     get_headers_for_letters ws letters = Raise e).
Proof.
  destruct (valid_or_first_invalid letters)
    as [Hall|(pre & L & post & e & -> & Hpre & HL)].
  - left. split; [done|].
    destruct (get_headers_for_letters_ok letters ws Hall) as (m & ws' & Hrun).
    exists m, ws'. split; [done|].
    apply get_headers_loop in Hrun as [Hcells Hmap].
    split_and!; [done|..]; intros L HL; [by apply Hmap|].
    destruct (Hmap L) as [_ Hnone]. by rewrite (Hnone HL), lookup_empty.
  - right. exists pre, L, post, e. split_and!; [done..|].
    by apply get_headers_raise_loop.
Qed.

(** ** The extent of the sheet *)

Section extent.
Variable (proj : nat * nat → nat).

Local Abbreviation extent := (sheet_extent proj).

Lemma extent_insert_fresh (k : nat * nat) (x : Cell) (ws : Worksheet) :
  ws !! k = None → extent (<[k := x]> ws) = proj k `max` extent ws.
Proof.
  intros Hk. unfold sheet_extent.
  rewrite map_fold_insert_L; [done| |done]. intros; lia.
Qed.

Lemma extent_insert (k : nat * nat) (x : Cell) (ws : Worksheet) :
  extent (<[k := x]> ws) = proj k `max` extent ws.
Proof.
  destruct (ws !! k) as [y|] eqn:Hk; [|by apply extent_insert_fresh].
  rewrite <-(insert_delete_eq ws k x).
  rewrite extent_insert_fresh by apply lookup_delete_eq.
  rewrite <-(insert_delete_id ws k y Hk) at 2.
  rewrite extent_insert_fresh by apply lookup_delete_eq. lia.
Qed.

Lemma extent_ge_1 (ws : Worksheet) : (1 ≤ extent ws)%nat.
Proof.
  unfold sheet_extent.
  apply (map_fold_weak_ind (λ acc _, 1 ≤ acc)%nat); [done|]. intros; lia.
Qed.
End extent.

Lemma max_row_update (f : Cell → Cell) (r c : nat) (ws : Worksheet) :
  max_row (ws_update f r c ws) = r `max` max_row ws.
Proof. apply (extent_insert fst). Qed.

Lemma max_column_update (f : Cell → Cell) (r c : nat) (ws : Worksheet) :
  max_column (ws_update f r c ws) = c `max` max_column ws.
Proof. apply (extent_insert snd). Qed.

Lemma max_row_ge_1 (ws : Worksheet) : (1 ≤ max_row ws)%nat.
Proof. apply (extent_ge_1 fst). Qed.

(** Reading the headers creates cells in row 1 at most: the sheet has as
    many rows as before and at least as many columns. *)
Lemma get_headers_for_letters_extent (letters : list string) (ws ws' : Worksheet)
    (header_map : gmap string string) :
  get_headers_for_letters ws letters = Ok (header_map, ws') →
  max_row ws' = max_row ws ∧ (max_column ws ≤ max_column ws')%nat.
Proof.
  unfold get_headers_for_letters.
  apply (for_each_invariant
           (λ acc, max_row acc.2 = max_row ws ∧
                   (max_column ws ≤ max_column acc.2)%nat) get_header);
    [|done].
  intros [m w] L [m' w'] _ [Hrow Hcol]. unfold get_header.
  destruct (column_index_from_string L) as [idx|e]; [|done].
  intros [= <- <-]. simpl in *.
  rewrite max_row_update, max_column_update, Hrow.
  pose proof (max_row_ge_1 ws). lia.
Qed.

(** ** A whole run, row by row *)

Lemma run_Ok_inv (df_q1 df_q2 : DataFrame) (ws : Worksheet)
    (target_letters : list string) (o : Outcome) :
  highlight_q2_changes df_q1 df_q2 ws target_letters = Ok o →
  target_letters ≠ [] ∧
  key_header_q2 o = header_text (value (ws_cell ws 1 2)) ∧
  key_header_q2 o ≠ "" ∧
  key_header_in_q1 df_q1 (key_header_q2 o) = Ok (key_header_q1 o) ∧
  ∃ q2_headers ws1,
    get_headers_for_letters (ws_update id 1 2 ws) target_letters
    = Ok (q2_headers, ws1) ∧
    scan_rows df_q1 df_q2 target_letters (key_header_q2 o)
      (build_lookup df_q1 (key_header_q1 o)) q2_headers
      (find_matching_headers_in_q1 df_q1 q2_headers)
      (max_column ws1) (max_row ws1) ws1 = Ok (saved o).
Proof.
  unfold highlight_q2_changes.
  case_bool_decide as Hletters; [done|]. rewrite header_from_letter_B. simpl.
  case_bool_decide as Hkey; [done|].
  destruct (key_header_in_q1 _ _) as [key_header_q1|e] eqn:Hq1; simpl; [|done].
  destruct (get_headers_for_letters _ _) as [[q2_headers ws1]|e] eqn:Hh;
    simpl; [|done].
  destruct (scan_rows _ _ _ _ _ _ _ _ _ _) as [ws2|e] eqn:Hscan; simpl; [|done].
  intros [= <-]. simpl. split_and!; [done..|]. by exists q2_headers, ws1.
Qed.

Lemma q1_val_of_for (df_q1 : DataFrame) (q2_headers : gmap string string)
    (q1_row : Series) (L h : string) :
  q2_headers !! L = Some h →
  q1_val_of df_q1 q2_headers (find_matching_headers_in_q1 df_q1 q2_headers)
    q1_row L
  = q1_val_for df_q1 q1_row h.
Proof.
  intros Hq2. unfold q1_val_of, q1_header_of.
  by rewrite find_matching_lookup, Hq2.
Qed.

Section scan_rows.
Variables (df_q1 df_q2 : DataFrame) (target_letters : list string).
Variables (key_header_q2 : string) (q1_lookup : gmap string Series).
Variables (q2_headers_by_letter q1_headers_by_letter : gmap string string).
Variable (max_col : nat).

Local Abbreviation scan :=
  (scan_row df_q1 df_q2 target_letters key_header_q2 q1_lookup
     q2_headers_by_letter q1_headers_by_letter max_col).

(** In a scan that reaches row [r], the cells of that row are those of the
    sheet before the scan, changed by the turn of the loop for [r] alone. *)
Lemma scan_rows_at_row (n start r : nat) (ws ws' : Worksheet) :
  (start ≤ r < start + n)%nat →
  for_each scan (seq start n) ws = Ok ws' →
  ∃ ws1 ws2, (∀ c, ws_cell ws1 r c = ws_cell ws r c) ∧
             scan ws1 r = Ok ws2 ∧
             (∀ c, ws_cell ws' r c = ws_cell ws2 r c).
Proof.
  intros Hr.
  replace n with ((r - start) + S (start + n - r - 1))%nat by lia.
  rewrite seq_app, for_each_app.
  replace (start + (r - start))%nat with r by lia.
  cbn [seq].
  destruct (for_each _ (seq start _) ws) as [ws1|e] eqn:Hbefore; [|by simpl].
  change (Ok ws1 ≫= ?f) with (f ws1). cbn beta. rewrite for_each_cons.
  destruct (scan ws1 r) as [ws2|e] eqn:Hrow; [|by simpl].
  change (Ok ws2 ≫= ?f) with (f ws2). cbn beta. intros Hafter.
  exists ws1, ws2. split_and!; [|done|].
  - eapply scan_rows_other_rows; [|exact Hbefore]. intros ?%elem_of_seq. lia.
  - eapply scan_rows_other_rows; [|exact Hafter]. intros ?%elem_of_seq. lia.
Qed.

(** Comparing the letters of a row leaves alone the cells that no letter
    names. *)
Lemma compare_letters_other_columns (q1_row : Series) (r c : nat)
    (letters : list string) (ws ws' : Worksheet) :
  (∀ L, L ∈ letters → column_index_from_string L ≠ Ok c) →
  for_each (compare_letter df_q1 q2_headers_by_letter q1_headers_by_letter
              q1_row r) letters ws = Ok ws' →
  ws_cell ws' r c = ws_cell ws r c.
Proof.
  intros Hc.
  apply (for_each_invariant (λ ws1, ws_cell ws1 r c = ws_cell ws r c)); [|done].
  intros ws1 L ws2 HL <-. unfold compare_letter.
  destruct (column_index_from_string L) as [idx|e] eqn:Hidx; simpl; [|done].
  destruct (to_str_cell _) as [q2_val|e]; simpl; [|done].
  intros [= <-]. rewrite ws_cell_update. rewrite bool_decide_false; [done|].
  intros [= <-]. by apply (Hc L).
Qed.
End scan_rows.

(** X12. A run leaves a cell as it was (value and fill) when its row is the
    header row or lies below the last row of the sheet, when the DataFrame
    of the Second workbook has no row for it, when the key of its row is
    empty, or when its row is compared and no selected letter names its
    column. *)
Theorem run_frame (df_q1 df_q2 : DataFrame) (ws : Worksheet)
    (target_letters : list string) (o : Outcome) (r c : nat)
    (Hrun : highlight_q2_changes df_q1 df_q2 ws target_letters = Ok o)
    (Hcell :
       (r < 2)%nat ∨ (max_row ws < r)%nat ∨
       rows df_q2 !! (r - 2)%nat = None ∨
       ∃ row2, rows df_q2 !! (r - 2)%nat = Some row2 ∧
               (key_of (key_header_q2 o) row2 = "" ∨
                (is_Some (build_lookup df_q1 (key_header_q1 o)
                            !! key_of (key_header_q2 o) row2) ∧
                 ∀ L, L ∈ target_letters → column_index_from_string L ≠ Ok c))) :
  ws_cell (saved o) r c = ws_cell ws r c.
Proof.
  apply run_Ok_inv in Hrun
    as (_ & _ & _ & _ & q2_headers & ws1 & Hh & Hscan).
  pose proof (get_headers_for_letters_cells _ _ _ _ Hh) as Hcells.
  destruct (get_headers_for_letters_extent _ _ _ _ Hh) as [Hrows _].
  rewrite max_row_update in Hrows. pose proof (max_row_ge_1 ws) as Hge.
  assert (∀ c, ws_cell ws1 r c = ws_cell ws r c) as Hws1.
  { intros c'. by rewrite Hcells, ws_cell_touch. }
  rewrite <-Hws1. unfold scan_rows in Hscan.
  destruct (decide (2 ≤ r < 2 + (max_row ws1 - 1))%nat) as [Hr|Hr].
  2:{ eapply scan_rows_other_rows; [|exact Hscan]. by intros ?%elem_of_seq. }
  destruct Hcell as [?|[?|Hcell]]; [lia..|].
  destruct (scan_rows_at_row _ _ _ _ _ _ _ _ _ _ _ _ _ Hr Hscan)
    as (wa & wb & Hwa & Hrow & Hwb).
  rewrite Hwb, <-Hwa. revert Hrow. unfold scan_row.
  destruct Hcell as [->|(row2 & -> & Hkey)]; [by intros [= <-]|].
  unfold row_kind_of, is_new_project.
  destruct Hkey as [->|[[q1_row Hl] Hcol]].
  - rewrite build_lookup_empty_key. simpl. by intros [= <-].
  - rewrite Hl. rewrite (bool_decide_false (Some q1_row = None)) by done.
    rewrite andb_false_r. by apply compare_letters_other_columns.
Qed.

Lemma run_frame_witness :
  ∃ o, highlight_q2_changes q1_O q2_O ws_O ["O"] = Ok o ∧
       ws_cell (saved o) 2 2 = ws_cell ws_O 2 2.
Proof.
  eexists. split; [vm_compute; reflexivity|].
  apply (run_frame q1_O q2_O ws_O ["O"]); [vm_compute; reflexivity|].
  right. right. right. eexists. split; [reflexivity|]. right. split.
  - eexists. vm_compute. reflexivity.
  - intros L ->%list_elem_of_singleton. vm_compute. discriminate.
Defined.

(** X13. In a run, a row of the sheet whose key is not empty and not in the
    baseline index is filled over all the columns the sheet had, and none of
    its cells changes its value. *)
Theorem run_new_row (df_q1 df_q2 : DataFrame) (ws : Worksheet)
    (target_letters : list string) (o : Outcome) (r : nat) (row2 : Series)
    (Hrun : highlight_q2_changes df_q1 df_q2 ws target_letters = Ok o)
    (Hr : (2 ≤ r ≤ max_row ws)%nat)
    (Hrow : rows df_q2 !! (r - 2)%nat = Some row2)
    (Hkey : key_of (key_header_q2 o) row2 ≠ "")
    (Hnew : build_lookup df_q1 (key_header_q1 o)
              !! key_of (key_header_q2 o) row2 = None) :
  ∀ c, value (ws_cell (saved o) r c) = value (ws_cell ws r c) ∧
       ((1 ≤ c ≤ max_column ws)%nat →
        fill (ws_cell (saved o) r c) = newrow_fill).
Proof.
  apply run_Ok_inv in Hrun
    as (_ & _ & _ & _ & q2_headers & ws1 & Hh & Hscan).
  pose proof (get_headers_for_letters_cells _ _ _ _ Hh) as Hcells.
  destruct (get_headers_for_letters_extent _ _ _ _ Hh) as [Hrows Hcols].
  rewrite max_row_update in Hrows. rewrite max_column_update in Hcols.
  pose proof (max_row_ge_1 ws) as Hge.
  unfold scan_rows in Hscan.
  assert (2 ≤ r < 2 + (max_row ws1 - 1))%nat as Hr' by lia.
  destruct (scan_rows_at_row _ _ _ _ _ _ _ _ _ _ _ _ _ Hr' Hscan)
    as (wa & wb & Hwa & Hscan_r & Hwb).
  revert Hscan_r. unfold scan_row. rewrite Hrow.
  unfold row_kind_of, is_new_project. rewrite Hnew.
  rewrite (bool_decide_true _ Hkey). simpl. intros [= <-].
  intros c. rewrite Hwb, ws_cell_fill_new_row, Hwa, Hcells, ws_cell_touch.
  split.
  - by case_bool_decide.
  - intros Hc. rewrite bool_decide_true; [done|]. split; [done|]. lia.
Qed.

Lemma run_new_row_witness :
  ∃ o, highlight_q2_changes q1_demo q2_new ws_new ["C"] = Ok o ∧
       value (ws_cell (saved o) 2 1) = value (ws_cell ws_new 2 1) ∧
       ((1 ≤ 1 ≤ max_column ws_new)%nat →
        fill (ws_cell (saved o) 2 1) = newrow_fill).
Proof.
  eexists. split; [vm_compute; reflexivity|].
  apply (run_new_row q1_demo q2_new ws_new ["C"] _ 2
           (series [("Name", "n2"); ("OB Main ID", "2002");
                    ("Status", "Alpha Gamma")])).
  - vm_compute. reflexivity.
  - vm_compute. split; repeat constructor.
  - reflexivity.
  - vm_compute. discriminate.
  - vm_compute. reflexivity.
Defined.

(** X14. In a run on a sheet as loaded, with letters that name different
    columns, a row whose key is in the baseline index has every selected
    cell highlighted once: from the trimmed text it had and from the value
    of the baseline row under the header kept for the First workbook (the
    empty string when the First workbook has no such column). *)
Theorem run_compared_cell (df_q1 df_q2 : DataFrame) (ws : Worksheet)
    (target_letters : list string) (o : Outcome) (r idx : nat)
    (row2 q1_row : Series) (L : string)
    (Hrun : highlight_q2_changes df_q1 df_q2 ws target_letters = Ok o)
    (Hdup : NoDup (column_index_from_string <$> target_letters))
    (Hplain : ∀ c, is_plain (value (ws_cell ws r c)))
    (Hr : (2 ≤ r ≤ max_row ws)%nat)
    (Hrow : rows df_q2 !! (r - 2)%nat = Some row2)
    (Hkey : build_lookup df_q1 (key_header_q1 o)
              !! key_of (key_header_q2 o) row2 = Some q1_row)
    (HL : L ∈ target_letters)
    (Hidx : column_index_from_string L = Ok idx) :
  ∃ q2_val,
    to_str_cell (value (ws_cell ws r idx)) = Ok q2_val ∧
    ws_cell (saved o) r idx
    = highlight L
        (q1_val_for df_q1 q1_row (header_text (value (ws_cell ws 1 idx))))
        q2_val (ws_cell ws r idx).
Proof.
  apply run_Ok_inv in Hrun
    as (_ & _ & _ & _ & q2_headers & ws1 & Hh & Hscan).
  pose proof (get_headers_for_letters_cells _ _ _ _ Hh) as Hcells.
  destruct (get_headers_for_letters_extent _ _ _ _ Hh) as [Hrows _].
  rewrite max_row_update in Hrows. pose proof (max_row_ge_1 ws) as Hge.
  assert (∀ r c, ws_cell ws1 r c = ws_cell ws r c) as Hws1.
  { intros r' c'. by rewrite Hcells, ws_cell_touch. }
  assert (Forall valid_letter target_letters) as Hvalid.
  { apply Forall_forall. intros L' HL'.
    destruct (get_headers_for_letters_lookup _ _ _ _ _ Hh HL') as (i & Hi & _).
    by exists i. }
  destruct (get_headers_for_letters_lookup _ _ _ _ _ Hh HL)
    as (idx' & Hidx' & Hq2).
  assert (idx' = idx) as -> by congruence. rewrite ws_cell_touch in Hq2.
  unfold scan_rows in Hscan.
  pose proof (scan_rows_compared_cell df_q1 df_q2 (key_header_q2 o)
                (build_lookup df_q1 (key_header_q1 o)) q2_headers
                (find_matching_headers_in_q1 df_q1 q2_headers)
                (max_column ws1) target_letters (max_row ws1 - 1) 2 r ws1
                (saved o) row2 q1_row L idx Hvalid Hdup) as Hcmp.
  destruct Hcmp as (q2_val & Hq & Hcell);
    [intros c; rewrite Hws1; apply Hplain|lia|done..|].
  rewrite !Hws1 in Hq, Hcell. exists q2_val. split; [done|].
  by rewrite Hcell, (q1_val_of_for _ _ _ _ _ Hq2).
Qed.

Lemma ws_O_plain (r c : nat) : is_plain (value (ws_cell ws_O r c)).
Proof.
  unfold ws_cell. destruct (ws_O !! (r, c)) as [cell|] eqn:Hcell; [|exact I].
  apply (map_Forall_lookup_1 (λ _ cell, is_plain (value cell)) ws_O (r, c));
    [|exact Hcell].
  apply map_Forall_to_list. vm_compute. repeat constructor.
Qed.

Lemma run_compared_cell_witness :
  ∃ o, highlight_q2_changes q1_O q2_O ws_O ["O"] = Ok o ∧
       ∃ q2_val,
         to_str_cell (value (ws_cell ws_O 2 15)) = Ok q2_val ∧
         ws_cell (saved o) 2 15
         = highlight "O"
             (q1_val_for q1_O
                (series [("OB Main ID", "1001"); ("Status", "Alpha Beta")])
                (header_text (value (ws_cell ws_O 1 15))))
             q2_val (ws_cell ws_O 2 15).
Proof.
  eexists. split; [vm_compute; reflexivity|].
  apply (run_compared_cell q1_O q2_O ws_O ["O"] _ 2 15
           (series [("OB Main ID", "1001"); ("Status", "Alpha Gamma")])).
  - vm_compute. reflexivity.
  - apply NoDup_singleton.
  - intros c. apply ws_O_plain.
  - assert (max_row ws_O = 2%nat) as -> by (vm_compute; reflexivity). lia.
  - reflexivity.
  - vm_compute. reflexivity.
  - apply list_elem_of_here.
  - vm_compute. reflexivity.
Defined.

(** X15. A letter that names no column stops the run before any row is scanned:
    with a header in column B that the First workbook has, the run raises
    the error of the first such letter and returns no outcome. *)
Theorem run_invalid_letter (df_q1 df_q2 : DataFrame) (ws : Worksheet)
    (pre post : list string) (L key_header : string) (e : exn)
    (Hpre : Forall valid_letter pre)
    (HL : column_index_from_string L = Raise e)
    (Hkey : header_text (value (ws_cell ws 1 2)) ≠ "")
    (Hq1 : key_header_in_q1 df_q1 (header_text (value (ws_cell ws 1 2)))
           = Ok key_header) :
  highlight_q2_changes df_q1 df_q2 ws (pre ++ L :: post)%list = Raise e.
Proof.
  unfold highlight_q2_changes.
  rewrite bool_decide_false by (by destruct pre).
  rewrite header_from_letter_B. simpl.
  rewrite (bool_decide_false _ Hkey), Hq1. simpl.
  unfold get_headers_for_letters.
  by rewrite (get_headers_raise_loop pre post L e _ Hpre HL).
Qed.

Lemma run_invalid_letter_witness :
  highlight_q2_changes q1_AB q2_AB ws_AB (["C"] ++ "C3" :: [])%list
  = Raise (ValueError "C3 is not a valid column name").
Proof.
  apply (run_invalid_letter q1_AB q2_AB ws_AB ["C"] [] "C3" "OB Main ID").
  - repeat constructor. by exists 3%nat.
  - vm_compute. reflexivity.
  - vm_compute. discriminate.
  - vm_compute. reflexivity.
Defined.

(** ** The letters typed into the form *)

Lemma str_split_on_cons sep c s :
  str_split_on sep (String c s)
  = if Ascii.eqb c sep then "" :: str_split_on sep s
    else match str_split_on sep s with
         | t :: ts => String c t :: ts
         | [] => [String c ""]
         end.
Proof. reflexivity. Qed.

Lemma str_split_on_no_sep sep s :
  Forall (λ t, string_forall (λ c, negb (Ascii.eqb c sep)) t = true)
    (str_split_on sep s).
Proof.
  induction s as [|c s IH]; [by repeat constructor|].
  rewrite str_split_on_cons. destruct (Ascii.eqb c sep) eqn:Hc.
  - by constructor.
  - destruct (str_split_on sep s) as [|t ts].
    + repeat constructor. simpl. by rewrite Hc.
    + inversion_clear IH. constructor; [|done]. simpl. by rewrite Hc.
Qed.

Lemma str_split_on_nonempty sep s : str_split_on sep s ≠ [].
Proof.
  destruct s as [|c s]; [done|]. rewrite str_split_on_cons.
  destruct (Ascii.eqb c sep); [done|]. by destruct (str_split_on sep s).
Qed.

(** Every piece between the separators is blank exactly when the string
    holds separators and whitespace only. *)
Lemma str_split_on_blank s :
  Forall (λ t, Py.strip t = "") (str_split_on "," s) ↔
  string_forall (λ c, Py.isspace c || Ascii.eqb c ",") s = true.
Proof.
  induction s as [|c s IH]; [split; [done|by repeat constructor]|].
  rewrite str_split_on_cons. simpl string_forall.
  destruct (Ascii.eqb c ",") eqn:Hc.
  - rewrite orb_true_r. simpl. rewrite <-IH. split.
    + by intros [_ ?]%Forall_cons.
    + intros ?. by constructor.
  - rewrite orb_false_r.
    pose proof (str_split_on_nonempty "," s) as Hne.
    destruct (str_split_on "," s) as [|t ts]; [done|].
    rewrite andb_true_iff, <-IH, !Forall_cons, !strip_all_space. simpl.
    rewrite andb_true_iff. tauto.
Qed.

Lemma upper_char_cases c :
  (∃ x, Py.upper_char c = String x "" ∧ Py.isspace x = Py.isspace c ∧
        Ascii.eqb x "," = Ascii.eqb c ",") ∨
  (Py.upper_char c = "SS" ∧ Py.isspace c = false ∧ Ascii.eqb c "," = false).
Proof.
  destruct c as [[] [] [] [] [] [] [] []];
    first [by right | left; eexists; split_and!; reflexivity].
Qed.

Lemma upper_cons c t : Py.upper (String c t) = Py.upper_char c ++ Py.upper t.
Proof. reflexivity. Qed.

Lemma string_app_cons c s u : String c s ++ u = String c (s ++ u).
Proof. reflexivity. Qed.

Lemma string_app_nil_l u : "" ++ u = u.
Proof. reflexivity. Qed.

Lemma upper_nonempty t : t ≠ "" → Py.upper t ≠ "".
Proof.
  destruct t as [|c t]; [done|]. intros _. rewrite upper_cons.
  destruct (upper_char_cases c) as [(x & -> & _)|[-> _]];
    by rewrite string_app_cons.
Qed.

Lemma upper_starts t :
  starts_with_by Py.isspace (Py.upper t) = starts_with_by Py.isspace t.
Proof.
  destruct t as [|c t]; [done|]. rewrite upper_cons.
  destruct (upper_char_cases c) as [(x & -> & Hx & _)|(-> & Hc & _)];
    rewrite string_app_cons; simpl; [done|by rewrite Hc].
Qed.

Lemma ends_with_by_cons p c u :
  ends_with_by p (String c u) = if (u =? "")%string then p c else ends_with_by p u.
Proof. by destruct u. Qed.

Lemma upper_ends t :
  ends_with_by Py.isspace (Py.upper t) = ends_with_by Py.isspace t.
Proof.
  induction t as [|c t IH]; [done|]. rewrite upper_cons, ends_with_by_cons.
  assert ((Py.upper t =? "")%string = (t =? "")%string) as Hemp.
  { destruct t as [|c' t]; [done|].
    pose proof (upper_nonempty (String c' t)) as Hne.
    destruct (Py.upper (String c' t)); [by destruct Hne|done]. }
  destruct (upper_char_cases c) as [(x & -> & Hx & _)|(-> & Hc & _)].
  - rewrite string_app_cons, string_app_nil_l.
    by rewrite ends_with_by_cons, Hemp, Hx, IH.
  - rewrite !string_app_cons, string_app_nil_l.
    rewrite !ends_with_by_cons, Hemp, IH, Hc. simpl.
    by destruct (t =? "")%string.
Qed.

Lemma upper_no_comma t :
  string_forall (λ c, negb (Ascii.eqb c ",")) t = true →
  string_forall (λ c, negb (Ascii.eqb c ",")) (Py.upper t) = true.
Proof.
  induction t as [|c t IH]; [done|]. intros H. simpl in H.
  apply andb_true_iff in H as [Hc Hall]. rewrite upper_cons.
  destruct (upper_char_cases c) as [(x & -> & _ & Hx)|(-> & _)];
    rewrite !string_app_cons, string_app_nil_l; simpl;
    [rewrite Hx, Hc|]; by rewrite IH.
Qed.

Lemma parse_letters_clean (cols_raw : string) :
  Forall clean_letter (parse_letters cols_raw).
Proof.
  unfold parse_letters. apply Forall_fmap, Forall_forall.
  intros c [Hc Hin]%list_elem_of_filter. unfold clean_letter. simpl.
  split_and!.
  - by apply upper_nonempty.
  - rewrite upper_starts. apply strip_by_ends.
  - rewrite upper_ends. apply strip_by_ends.
  - apply upper_no_comma. unfold Py.strip, Py.strip_by.
    apply string_forall_rstrip, string_forall_lstrip.
    pose proof (str_split_on_no_sep "," cols_raw) as Hall.
    rewrite Forall_forall in Hall. by apply Hall.
Qed.

Lemma parse_letters_nil (cols_raw : string) :
  parse_letters cols_raw = [] ↔
  string_forall (λ c, Py.isspace c || Ascii.eqb c ",") cols_raw = true.
Proof.
  rewrite <-str_split_on_blank. unfold parse_letters.
  generalize (str_split_on "," cols_raw). intros l.
  induction l as [|t l IH]; [done|]. rewrite filter_cons, Forall_cons.
  case_decide as Ht; simpl; [|rewrite IH]; intuition congruence.
Qed.

(** X18. The letters the form passes on: each is a piece of the field between
    commas, trimmed and in upper case; none is empty, starts or ends with
    whitespace, or holds a comma. No letter is left exactly when the field
    holds commas and whitespace only. *)
Theorem parse_letters_spec (cols_raw : string) :
  Forall clean_letter (parse_letters cols_raw) ∧
  (parse_letters cols_raw = [] ↔
   string_forall (λ c, Py.isspace c || Ascii.eqb c ",") cols_raw = true).
Proof. split; [apply parse_letters_clean|apply parse_letters_nil]. Qed.

(** X19. When the form calls [highlight_q2_changes], both paths are trimmed, not
    empty and exist, the sheet name is absent or not empty, and the list of
    letters is not empty and holds clean letters only: the call never meets
    the check for an empty list of columns. *)
Theorem run_compare_call (path_exists : string → bool)
    (q1_path q2_path sheet_name columns_letters q1 q2 : string)
    (target_letters : list string) (sheet : option string)
    (Hcall : run_compare path_exists q1_path q2_path sheet_name columns_letters
             = call_highlight q1 q2 target_letters sheet) :
  q1 = Py.strip q1_path ∧ q1 ≠ "" ∧ path_exists q1 = true ∧
  q2 = Py.strip q2_path ∧ q2 ≠ "" ∧ path_exists q2 = true ∧
  sheet ≠ Some "" ∧
  target_letters = parse_letters (Py.strip columns_letters) ∧
  target_letters ≠ [] ∧ Forall clean_letter target_letters.
Proof.
  revert Hcall. unfold run_compare.
  case_bool_decide as H1; simpl; [done|].
  destruct (path_exists (Py.strip q1_path)) eqn:He1; simpl; [|done].
  case_bool_decide as H2; simpl; [done|].
  destruct (path_exists (Py.strip q2_path)) eqn:He2; simpl; [|done].
  case_bool_decide as H3; [done|]. case_bool_decide as H4; [done|].
  intros [= <- <- <- <-]. split_and!; try done.
  - case_bool_decide; [done|]. congruence.
  - apply parse_letters_clean.
Qed.

Lemma run_compare_call_witness :
  let letters := parse_letters "i, o ,,P" in
  letters = ["I"; "O"; "P"] ∧ letters ≠ [] ∧ Forall clean_letter letters.
Proof.
  intros letters. split; [vm_compute; reflexivity|].
  eapply (run_compare_call (λ _, true) "a.xlsx" " b.xlsx " "" " i, o ,,P "
            "a.xlsx" "b.xlsx" letters None).
  vm_compute. reflexivity.
Defined.

(** ** What a run returns or raises *)

(** X16. The two key headers a successful run returns: the header of column B of
    the sheet, which is not empty, and a column of the First workbook with
    the same normalized name, on which the baseline index is built. *)
Theorem run_outcome_keys (df_q1 df_q2 : DataFrame) (ws : Worksheet)
    (target_letters : list string) (o : Outcome)
    (Hrun : highlight_q2_changes df_q1 df_q2 ws target_letters = Ok o) :
  key_header_q2 o = header_text (value (ws_cell ws 1 2)) ∧
  key_header_q2 o ≠ "" ∧
  key_header_q1 o ∈ columns df_q1 ∧
  normalize_colname (key_header_q1 o) = normalize_colname (key_header_q2 o) ∧
  (key_header_q2 o ∈ columns df_q1 → key_header_q1 o = key_header_q2 o).
Proof.
  apply run_Ok_inv in Hrun as (_ & Hq2 & Hne & Hq1 & _).
  pose proof (key_header_in_q1_inv _ _ _ Hq1) as [Hcol Hrel].
  split_and!; [done..| |].
  - by destruct Hrel as [->|[_ ->]].
  - intros Hin. by destruct Hrel as [->|[? _]].
Qed.

Lemma run_outcome_keys_witness :
  ∃ o, highlight_q2_changes q1_O q2_O ws_O ["O"] = Ok o ∧
       key_header_q1 o ∈ columns q1_O.
Proof.
  eexists. split; [vm_compute; reflexivity|].
  eapply (run_outcome_keys q1_O q2_O ws_O ["O"]). vm_compute. reflexivity.
Defined.

Lemma for_each_raise {A S : Type} (body : S → A → result S) (l : list A)
    (s : S) (e : exn) :
  for_each body l s = Raise e → ∃ s' x, x ∈ l ∧ body s' x = Raise e.
Proof.
  revert s. induction l as [|x l IH]; intros s; [done|].
  rewrite for_each_cons. destruct (body s x) as [s1|e1] eqn:Hx.
  - change (Ok s1 ≫= ?f) with (f s1). cbn beta.
    intros (s' & y & Hy & Hbody)%IH.
    exists s', y. split; [by apply list_elem_of_further|done].
  - intros [= <-]. exists s, x. split; [apply list_elem_of_here|done].
Qed.

Lemma column_index_raise (L : string) (e : exn) :
  column_index_from_string L = Raise e → ∃ msg, e = ValueError msg.
Proof.
  unfold column_index_from_string.
  destruct (if bool_decide _ then _ else _); [done|].
  intros [= <-]. by eexists.
Qed.

Lemma to_str_cell_raise (v : cell_value) (e : exn) :
  to_str_cell v = Raise e → ∃ msg, e = ValueError msg.
Proof.
  destruct v as [| |rt]; simpl; [done..|].
  case_bool_decide; [done|]. intros [= <-]. by eexists.
Qed.

Lemma scan_row_raise (df_q1 df_q2 : DataFrame) (target_letters : list string)
    (key_header_q2 : string) (q1_lookup : gmap string Series)
    (q2_headers q1_headers : gmap string string) (max_col r : nat)
    (ws : Worksheet) (e : exn) :
  scan_row df_q1 df_q2 target_letters key_header_q2 q1_lookup q2_headers
    q1_headers max_col ws r = Raise e →
  ∃ msg, e = ValueError msg.
Proof.
  unfold scan_row. destruct (rows df_q2 !! _) as [row2|]; [|done].
  destruct (row_kind_of _ _) as [|q1_row|]; [done| |done].
  intros (ws' & L & _ & Hstep)%for_each_raise. revert Hstep.
  unfold compare_letter.
  destruct (column_index_from_string L) as [idx|e1] eqn:Hidx; simpl.
  - destruct (to_str_cell _) as [q2_val|e2] eqn:Hq; simpl; [done|].
    intros [= <-]. by eapply to_str_cell_raise.
  - intros [= <-]. by eapply column_index_raise.
Qed.

(** X17. When the comparison of a loaded sheet and two loaded DataFrames
    raises, what it raises is a [RuntimeError] exactly when letters were
    given and the header of column B is empty or is no column of the First
    workbook, as it is or by normalized name: the empty list of letters, a
    letter that names no column and a cell that cannot be read never end in
    a [RuntimeError], and a key header that cannot be resolved always
    does. *)
Theorem run_raises (df_q1 df_q2 : DataFrame) (ws : Worksheet)
    (target_letters : list string) (e : exn)
    (Hrun : highlight_q2_changes df_q1 df_q2 ws target_letters = Raise e) :
  let key := header_text (value (ws_cell ws 1 2)) in
  (∃ msg, e = RuntimeError msg) ↔
  target_letters ≠ [] ∧
  (key = "" ∨
   ((key ∉ columns df_q1) ∧
    ∀ c, c ∈ columns df_q1 → normalize_colname c ≠ normalize_colname key)).
Proof.
  intros key. revert Hrun. unfold highlight_q2_changes.
  case_bool_decide as Hletters.
  { intros [= <-]. split; [by intros [? ?]|by intros [? _]]. }
  rewrite header_from_letter_B. simpl. fold key.
  case_bool_decide as Hkey.
  { intros [= <-]. split; [by split; [|left]|by eexists]. }
  destruct (key_header_in_q1 df_q1 key) as [key_header_q1|e1] eqn:Hq1; simpl.
  - apply key_header_in_q1_inv in Hq1 as [Hcol Hrel].
    assert (¬ (key = "" ∨
               ((key ∉ columns df_q1) ∧
                ∀ c, c ∈ columns df_q1 →
                     normalize_colname c ≠ normalize_colname key))) as Hgood.
    { intros [?|[Hnin Hnone]]; [done|].
      destruct Hrel as [->|[_ Hn]]; [done|]. by destruct (Hnone key_header_q1). }
    assert (∀ msg, e = ValueError msg →
              ((∃ msg, e = RuntimeError msg) ↔
               target_letters ≠ [] ∧
               (key = "" ∨
                ((key ∉ columns df_q1) ∧
                 ∀ c, c ∈ columns df_q1 →
                      normalize_colname c ≠ normalize_colname key))))
      as Hvalue.
    { intros msg ->. split; [by intros [? ?]|]. intros [_ ?]. by destruct Hgood. }
    destruct (get_headers_for_letters _ _) as [[q2_headers ws1]|e2] eqn:Hh;
      simpl.
    + destruct (scan_rows _ _ _ _ _ _ _ _ _ _) as [ws2|e3] eqn:Hscan;
        simpl; [done|].
      intros [= <-]. unfold scan_rows in Hscan.
      apply for_each_raise in Hscan as (ws' & r & _ & Hrow).
      apply scan_row_raise in Hrow as [msg ->]. by eapply Hvalue.
    + intros [= <-]. unfold get_headers_for_letters in Hh.
      apply for_each_raise in Hh as ([m w] & L & _ & Hstep).
      unfold get_header in Hstep.
      destruct (column_index_from_string L) as [idx|e4] eqn:Hidx; [done|].
      simpl in Hstep. injection Hstep as <-.
      apply column_index_raise in Hidx as [msg ->]. by eapply Hvalue.
  - intros [= <-]. revert Hq1. unfold key_header_in_q1.
    case_bool_decide as Hin; [done|]. rewrite norm_map_index.
    destruct ((foldl _ _ _) !! _) as [c|] eqn:Hm; [done|].
    intros [= <-].
    split; [|by eexists]. intros _. split; [done|]. right. split; [done|].
    intros c Hc. eapply index_lookup_None in Hm; [|exact Hc]. congruence.
Qed.

Lemma run_raises_witness :
  let key := header_text (value (ws_cell ws_demo 1 2)) in
  ["C"] ≠ [] ∧
  (key = "" ∨
   ((key ∉ columns q1_other) ∧
    ∀ c, c ∈ columns q1_other → normalize_colname c ≠ normalize_colname key)).
Proof.
  assert (∃ msg, highlight_q2_changes q1_other q2_demo ws_demo ["C"]
                 = Raise (RuntimeError msg)) as [msg Hrun]
    by (eexists; vm_compute; reflexivity).
  apply (run_raises q1_other q2_demo ws_demo ["C"] _ Hrun). by eexists.
Defined.

(** ** The run writes into the sheet of the Second workbook *)

(** Scenario C in column O: the cell is filled and rewritten. *)
Example scenario_C :
  ∃ o, highlight_q2_changes q1_O q2_O ws_O ["O"] = Ok o ∧
       ws_cell (saved o) 2 15
       = {| value := VRich [ {| font := font_default; text := "Alpha " |};
                             {| font := font_red; text := "Gamma" |} ];
            fill := changed_fill |}.
Proof. eexists. split; vm_compute; reflexivity. Qed.

(** Against C9 as stated. The comparison writes into the sheet it was given:
    the text of a compared cell is replaced by a rich text. *)
Lemma run_rewrites_cell_value :
  ¬ (∀ (df_q1 df_q2 : DataFrame) (ws : Worksheet) (target_letters : list string)
       (o : Outcome),
       highlight_q2_changes df_q1 df_q2 ws target_letters = Ok o →
       ∀ r c, value (ws_cell (saved o) r c) = value (ws_cell ws r c)).
Proof.
  intros H. destruct scenario_C as (o & Hrun & Hcell).
  specialize (H _ _ _ _ _ Hrun 2%nat 15%nat). rewrite Hcell in H.
  vm_compute in H. discriminate.
Qed.

(** ** What a run changes in the sheet *)

Lemma classify_Changed_nonempty (q1_val q2_val : string) :
  classify q1_val q2_val = Changed → q2_val ≠ "".
Proof.
  unfold classify. intros H ->. revert H.
  destruct (decide (q1_val = "")) as [->|Hq1].
  - by rewrite (bool_decide_false ("" ≠ "")) by (by intros ?).
  - by rewrite (bool_decide_true _ Hq1).
Qed.

Lemma highlight_value (L q1_val q2_val : string) (cell2 : Cell) :
  value (highlight L q1_val q2_val cell2)
  = if bool_decide (classify q1_val q2_val = Changed ∧ L ∈ WORD_DIFF_COLUMNS)
    then VRich (word_diff q1_val q2_val) else value cell2.
Proof.
  unfold highlight. destruct (classify q1_val q2_val) eqn:Hc.
  - rewrite bool_decide_false; [done|]. by intros [? _].
  - pose proof (classify_Changed_nonempty _ _ Hc) as Hq.
    rewrite (bool_decide_true _ Hq), andb_true_r.
    destruct (decide (L ∈ WORD_DIFF_COLUMNS)) as [HL|HL].
    + rewrite (bool_decide_true _ HL). by rewrite bool_decide_true.
    + rewrite (bool_decide_false _ HL). rewrite bool_decide_false; [done|].
      by intros [_ ?].
  - rewrite bool_decide_false; [done|]. by intros [? _].
Qed.

Lemma fill_after_trans (f0 f1 f2 : PatternFill) :
  fill_after f0 f1 → fill_after f1 f2 → fill_after f0 f2.
Proof. unfold fill_after. intros H1 [->|H2]; [done|]. by right. Qed.

Lemma highlight_fill (L q1_val q2_val : string) (cell2 : Cell) :
  fill_after (fill cell2) (fill (highlight L q1_val q2_val cell2)).
Proof.
  unfold highlight, fill_after.
  destruct (classify q1_val q2_val); [by right; right; left| |by left].
  destruct (_ && _); by right; left.
Qed.

(** The text read from a cell has no whitespace at either end. *)
Lemma to_str_cell_trimmed (v : cell_value) (q2_val : string) :
  to_str_cell v = Ok q2_val →
  starts_with_by Py.isspace q2_val = false ∧
  ends_with_by Py.isspace q2_val = false.
Proof.
  destruct v as [|s|rt]; simpl.
  - by intros [= <-].
  - intros [= <-]. apply (strip_by_ends Py.isspace).
  - case_bool_decide; [|done]. intros [= <-]. apply (strip_by_ends Py.isspace).
Qed.

Lemma all_space_ends (s : string) :
  s ≠ "" → string_forall Py.isspace s = true →
  ends_with_by Py.isspace s = true.
Proof.
  induction s as [|c s IH]; [done|]. intros _. simpl string_forall.
  intros [Hc Hs]%andb_true_iff. rewrite ends_with_by_cons.
  destruct s as [|c' s]; [done|]. by apply IH.
Qed.

(** A trimmed text of one token has no whitespace at all. *)
Lemma single_token_no_space (s : string) :
  starts_with_by Py.isspace s = false → ends_with_by Py.isspace s = false →
  length (Py.split s) = 1%nat →
  string_forall (λ c, negb (Py.isspace c)) s = true.
Proof.
  induction s as [|c s IH]; [done|]. intros Hstart Hend.
  change (Py.isspace c = false) in Hstart.
  rewrite split_cons_token by done. rewrite ends_with_by_cons in Hend.
  destruct s as [|c' s]; [intros _; simpl; by rewrite Hstart|].
  change (ends_with_by Py.isspace (String c' s) = false) in Hend.
  destruct (Py.isspace c') eqn:Hc'.
  - destruct (Py.split (String c' s)) as [|t ts] eqn:Hsplit; [|done].
    apply split_all_space, all_space_ends in Hsplit; [congruence|done].
  - destruct (Py.split (String c' s)) as [|t ts] eqn:Hsplit.
    + apply split_all_space in Hsplit. simpl in Hsplit. by rewrite Hc' in Hsplit.
    + intros Hlen. simpl string_forall. rewrite Hstart. apply IH; done.
Qed.

(** Reading back a word diff that can be read gives the text it was made
    from. *)
Lemma to_str_cell_word_diff (q1_val q2_val q2_val' : string) :
  starts_with_by Py.isspace q2_val = false →
  ends_with_by Py.isspace q2_val = false →
  to_str_cell (VRich (word_diff q1_val q2_val)) = Ok q2_val' →
  q2_val' = q2_val.
Proof.
  intros Hs He. unfold to_str_cell. case_bool_decide as Hlen; [|done].
  intros [= <-].
  assert (length (Py.split q2_val) = 1%nat) as Hone.
  { rewrite <-Hlen. unfold word_diff. by rewrite length_imap. }
  pose proof (single_token_no_space _ Hs He Hone) as Hall.
  assert (q2_val ≠ "") as Hne by (by intros ->).
  assert (rich_str (word_diff q1_val q2_val) = q2_val) as ->.
  { unfold word_diff. rewrite (rich_str_blocks _ _ _ 0) by done.
    by rewrite split_one_token. }
  by apply (strip_by_id Py.isspace).
Qed.

Lemma word_diff_column_snoc (done : list string) (L : string) (c : nat) :
  word_diff_column (done ++ [L]) c ↔
  word_diff_column done c ∨
  (L ∈ WORD_DIFF_COLUMNS ∧ column_index_from_string L = Ok c).
Proof.
  unfold word_diff_column. split.
  - intros (L' & [HL'| ->%list_elem_of_singleton]%elem_of_app & Hwd & Hidx).
    + left. by exists L'.
    + by right.
  - intros [(L' & HL' & Hwd & Hidx)|[Hwd Hidx]].
    + exists L'. split; [|done]. apply elem_of_app. by left.
    + exists L. split; [|done]. apply elem_of_app. right.
      by apply list_elem_of_singleton.
Qed.

(** A letter that names another column leaves the cell out. *)
Lemma value_after_other (done : list string) (L : string) (c : nat)
    (q1_val : string) (v0 v : cell_value) :
  column_index_from_string L ≠ Ok c →
  value_after done c q1_val v0 v → value_after (done ++ [L]) c q1_val v0 v.
Proof.
  intros Hne [(q2_val & Hread & Hch & Hwd & Hv)|[Hnot Hv]]; [left|right].
  - exists q2_val. split_and!; [done..| |done].
    apply word_diff_column_snoc. by left.
  - split; [|done].
    intros q2_val Hread Hch [Hwd|[_ Hidx]]%word_diff_column_snoc; [|done].
    by apply (Hnot q2_val).
Qed.

(** The comparison of a cell under one more letter that names its column:
    the text read is the text the cell had at first, also when the cell was
    rewritten under an earlier letter. *)
Lemma value_after_compared (done : list string) (L : string) (c : nat)
    (q1_val q2_val : string) (v0 : cell_value) (cell2 : Cell) :
  column_index_from_string L = Ok c →
  value_after done c q1_val v0 (value cell2) →
  to_str_cell (value cell2) = Ok q2_val →
  value_after (done ++ [L]) c q1_val v0 (value (highlight L q1_val q2_val cell2)).
Proof.
  intros Hidx Hafter Hread2. rewrite highlight_value.
  destruct Hafter as [(q2_val0 & Hread & Hch & Hwd & Hv)|[Hnot Hv]].
  - rewrite Hv in Hread2. destruct (to_str_cell_trimmed _ _ Hread) as [Hs He].
    apply (to_str_cell_word_diff _ _ _ Hs He) in Hread2 as ->.
    left. exists q2_val0. split_and!; [done..| |].
    + apply word_diff_column_snoc. by left.
    + rewrite Hv. by case_bool_decide.
  - rewrite Hv in Hread2 |- *. case_bool_decide as Hnow.
    + destruct Hnow as [Hch HL]. left. exists q2_val. split_and!; [done..| |done].
      apply word_diff_column_snoc. by right.
    + right. split; [|done].
      intros q2_val' Hread Hch [Hwd|[HL _]]%word_diff_column_snoc.
      * by apply (Hnot q2_val').
      * assert (q2_val' = q2_val) as -> by congruence. by destruct Hnow.
Qed.

(** A loop whose invariant speaks of the elements gone through so far. *)
Lemma for_each_prefix_invariant {A S : Type} (P : list A → S → Prop)
    (body : S → A → result S) (l done : list A) (s s' : S) :
  (∀ done x s s', x ∈ l → P done s → body s x = Ok s' → P (done ++ [x])%list s') →
  P done s → for_each body l s = Ok s' → P (done ++ l)%list s'.
Proof.
  revert done s. induction l as [|x l IH]; intros done s Hstep Hs.
  - intros [= <-]. by rewrite app_nil_r.
  - rewrite for_each_cons. destruct (body s x) as [s1|e] eqn:Hx; [|done].
    change (Ok s1 ≫= ?f) with (f s1). cbn beta. intros Hrest.
    rewrite (cons_middle x done l), app_assoc. eapply IH; [|..|exact Hrest].
    + intros done' y s2 s3 Hy. apply Hstep. by apply list_elem_of_further.
    + eapply Hstep; [apply list_elem_of_here|exact Hs|exact Hx].
Qed.

Section compared_values.
Variables (df_q1 : DataFrame).
Variables (q2_headers_by_letter q1_headers_by_letter : gmap string string).
Variables (q1_row : Series) (r : nat) (ws0 : Worksheet).
Variable (q1_val : nat → string).

Local Abbreviation compare :=
  (compare_letter df_q1 q2_headers_by_letter q1_headers_by_letter q1_row r).

Lemma compare_letter_value_after (done : list string) (L : string)
    (ws ws' : Worksheet) :
  (∀ idx, column_index_from_string L = Ok idx →
          q1_val_of df_q1 q2_headers_by_letter q1_headers_by_letter q1_row L
          = q1_val idx) →
  (∀ c, value_after done c (q1_val c) (value (ws_cell ws0 r c))
          (value (ws_cell ws r c))) →
  compare ws L = Ok ws' →
  ∀ c, value_after (done ++ [L]) c (q1_val c) (value (ws_cell ws0 r c))
         (value (ws_cell ws' r c)).
Proof.
  intros Hq1 Hafter. unfold compare_letter.
  destruct (column_index_from_string L) as [idx|e] eqn:Hidx; simpl; [|done].
  destruct (to_str_cell _) as [q2_val|e] eqn:Hread; simpl; [|done].
  intros [= <-] c. rewrite ws_cell_update, (Hq1 idx) by done.
  case_bool_decide as Hc.
  - injection Hc as ->. by apply value_after_compared.
  - apply value_after_other; [|done]. rewrite Hidx. by intros [= ->].
Qed.

(** The values in a row once it has been compared under all the letters. *)
Lemma compare_letters_value_after (letters : list string) (ws ws' : Worksheet) :
  (∀ L idx, L ∈ letters → column_index_from_string L = Ok idx →
            q1_val_of df_q1 q2_headers_by_letter q1_headers_by_letter q1_row L
            = q1_val idx) →
  (∀ c, ws_cell ws r c = ws_cell ws0 r c) →
  for_each compare letters ws = Ok ws' →
  ∀ c, value_after letters c (q1_val c) (value (ws_cell ws0 r c))
         (value (ws_cell ws' r c)).
Proof.
  intros Hq1 Hws Hloop.
  apply (for_each_prefix_invariant
           (λ done ws1, ∀ c, value_after done c (q1_val c)
                               (value (ws_cell ws0 r c))
                               (value (ws_cell ws1 r c)))
           compare letters [] ws ws'); [| |done].
  - intros done L ws1 ws2 HL Hafter Hstep.
    eapply compare_letter_value_after; [|exact Hafter|exact Hstep].
    intros idx. by apply Hq1.
  - intros c. right. rewrite Hws. split; [|done].
    intros _ _ _ (L & HL%elem_of_nil & _). done.
Qed.
End compared_values.

Section scan_fills.
Variables (df_q1 df_q2 : DataFrame) (target_letters : list string).
Variables (key_header_q2 : string) (q1_lookup : gmap string Series).
Variables (q2_headers_by_letter q1_headers_by_letter : gmap string string).
Variable (max_col : nat).
Variable (ws0 : Worksheet).

Local Abbreviation fills_after ws :=
  (∀ r c, fill_after (fill (ws_cell ws0 r c)) (fill (ws_cell ws r c))).

Lemma compare_letter_fills (q1_row : Series) (r : nat) (ws ws' : Worksheet)
    (L : string) :
  fills_after ws →
  compare_letter df_q1 q2_headers_by_letter q1_headers_by_letter q1_row r ws L
  = Ok ws' →
  fills_after ws'.
Proof.
  intros Hfills. unfold compare_letter.
  destruct (column_index_from_string L) as [idx|e]; simpl; [|done].
  destruct (to_str_cell _) as [q2_val|e]; simpl; [|done].
  intros [= <-] r' c'. rewrite ws_cell_update.
  case_bool_decide as Hc; [|apply Hfills]. injection Hc as -> ->.
  eapply fill_after_trans; [apply Hfills|apply highlight_fill].
Qed.

Lemma scan_row_fills (r : nat) (ws ws' : Worksheet) :
  fills_after ws →
  scan_row df_q1 df_q2 target_letters key_header_q2 q1_lookup
    q2_headers_by_letter q1_headers_by_letter max_col ws r = Ok ws' →
  fills_after ws'.
Proof.
  intros Hfills. unfold scan_row.
  destruct (rows df_q2 !! _) as [row2|]; [|by intros [= <-]].
  destruct (row_kind_of _ _) as [|q1_row|]; [| |by intros [= <-]].
  - intros [= <-] r' c'. rewrite ws_cell_fill_new_row.
    case_bool_decide; [|apply Hfills]. by right; right; right.
  - apply (for_each_invariant (λ ws1, fills_after ws1)); [|done].
    intros ws1 L ws2 _ Hws1. by apply compare_letter_fills.
Qed.

Lemma scan_rows_fills (max_row : nat) (ws ws' : Worksheet) :
  fills_after ws →
  scan_rows df_q1 df_q2 target_letters key_header_q2 q1_lookup
    q2_headers_by_letter q1_headers_by_letter max_col max_row ws = Ok ws' →
  fills_after ws'.
Proof.
  intros Hfills. unfold scan_rows.
  apply (for_each_invariant (λ ws1, fills_after ws1)); [|done].
  intros ws1 r ws2 _ Hws1. by apply scan_row_fills.
Qed.
End scan_fills.

Lemma row_kind_Skipped (q1_lookup : gmap string Series) (key_val : string) :
  row_kind_of q1_lookup key_val = Skipped → q1_lookup !! key_val = None.
Proof.
  unfold row_kind_of. destruct (is_new_project _ _); [done|].
  by destruct (q1_lookup !! key_val).
Qed.

Lemma compared_row_unique (t : Loaded) (o : Outcome) (r : nat)
    (q1_row q1_row' : Series) :
  compared_row t o r q1_row → compared_row t o r q1_row' → q1_row' = q1_row.
Proof.
  intros (_ & row2 & Hrow & Hkey) (_ & row2' & Hrow' & Hkey'). congruence.
Qed.

(** The fills of the saved sheet. *)
Lemma run_fill_after (df_q1 df_q2 : DataFrame) (ws : Worksheet)
    (target_letters : list string) (o : Outcome) :
  highlight_q2_changes df_q1 df_q2 ws target_letters = Ok o →
  ∀ r c, fill_after (fill (ws_cell ws r c)) (fill (ws_cell (saved o) r c)).
Proof.
  intros Hrun. apply run_Ok_inv in Hrun
    as (_ & _ & _ & _ & q2_headers & ws1 & Hh & Hscan).
  pose proof (get_headers_for_letters_cells _ _ _ _ Hh) as Hcells.
  eapply scan_rows_fills; [|exact Hscan].
  intros r c. left. by rewrite Hcells, ws_cell_touch.
Qed.

(** The values of the saved sheet: in a compared row they are as the
    comparison under all the letters leaves them, elsewhere they are kept. *)
Lemma run_value_after (t : Loaded) (target_letters : list string) (o : Outcome)
    (r c : nat) :
  highlight_q2_changes (loaded_df_q1 t) (loaded_df_q2 t) (loaded_ws t)
    target_letters = Ok o →
  (∃ q1_row,
     compared_row t o r q1_row ∧
     value_after target_letters c
       (q1_val_for (loaded_df_q1 t) q1_row
          (header_text (value (ws_cell (loaded_ws t) 1 c))))
       (value (ws_cell (loaded_ws t) r c)) (value (ws_cell (saved o) r c))) ∨
  ((∀ q1_row, ¬ compared_row t o r q1_row) ∧
   value (ws_cell (saved o) r c) = value (ws_cell (loaded_ws t) r c)).
Proof.
  destruct t as [df_q1 df_q2 ws]. cbn [loaded_df_q1 loaded_df_q2 loaded_ws].
  intros Hrun. apply run_Ok_inv in Hrun
    as (_ & _ & _ & _ & q2_headers & ws1 & Hh & Hscan).
  pose proof (get_headers_for_letters_cells _ _ _ _ Hh) as Hcells.
  destruct (get_headers_for_letters_extent _ _ _ _ Hh) as [Hrows _].
  rewrite max_row_update in Hrows. pose proof (max_row_ge_1 ws) as Hge.
  assert (∀ r c, ws_cell ws1 r c = ws_cell ws r c) as Hws1.
  { intros r' c'. by rewrite Hcells, ws_cell_touch. }
  unfold compared_row. cbn [loaded_df_q1 loaded_df_q2 loaded_ws].
  unfold scan_rows in Hscan.
  destruct (decide (2 ≤ r < 2 + (max_row ws1 - 1))%nat) as [Hr|Hr].
  2:{ right. split; [intros q1_row [Hr' _]; lia|].
      rewrite <-Hws1. f_equal.
      eapply scan_rows_other_rows; [|exact Hscan]. by intros ?%elem_of_seq. }
  destruct (scan_rows_at_row _ _ _ _ _ _ _ _ _ _ _ _ _ Hr Hscan)
    as (wa & wb & Hwa & Hrow & Hwb).
  rewrite Hwb. revert Hrow. unfold scan_row.
  destruct (rows df_q2 !! (r - 2)%nat) as [row2|] eqn:Hrow2.
  2:{ intros [= <-]. right. split; [by intros q1_row (_ & row2 & ? & _)|].
      by rewrite Hwa, Hws1. }
  destruct (row_kind_of _ _) as [|q1_row|] eqn:Hkind.
  - intros [= <-]. apply row_kind_NewRow in Hkind as [_ Hnone]. right. split.
    + intros q1_row (_ & row2' & ? & ?). congruence.
    + rewrite ws_cell_fill_new_row, Hwa, Hws1. by case_bool_decide.
  - intros Hloop. apply row_kind_Existing in Hkind. left. exists q1_row.
    split; [split; [lia|by exists row2]|].
    rewrite <-(Hws1 r c), <-(Hwa c).
    apply (compare_letters_value_after df_q1 q2_headers
             (find_matching_headers_in_q1 df_q1 q2_headers) q1_row r wa
             (λ c, q1_val_for df_q1 q1_row (header_text (value (ws_cell ws 1 c))))
             target_letters wa wb); [|done|done].
    intros L idx HL Hidx.
    destruct (get_headers_for_letters_lookup _ _ _ _ _ Hh HL)
      as (idx' & Hidx' & Hq2).
    assert (idx' = idx) as -> by congruence. rewrite ws_cell_touch in Hq2.
    by apply q1_val_of_for.
  - intros [= <-]. apply row_kind_Skipped in Hkind. right. split.
    + intros q1_row (_ & row2' & ? & ?). congruence.
    + by rewrite Hwa, Hws1.
Qed.

(** The values of the saved sheet, cell by cell. *)
Lemma run_values (t : Loaded) (target_letters : list string) (o : Outcome)
    (r c : nat) :
  highlight_q2_changes (loaded_df_q1 t) (loaded_df_q2 t) (loaded_ws t)
    target_letters = Ok o →
  (∀ q1_val q2_val,
     rewritten_cell t target_letters o r c q1_val q2_val →
     value (ws_cell (saved o) r c) = VRich (word_diff q1_val q2_val)) ∧
  ((∀ q1_val q2_val, ¬ rewritten_cell t target_letters o r c q1_val q2_val) →
   value (ws_cell (saved o) r c) = value (ws_cell (loaded_ws t) r c)).
Proof.
  intros Hrun.
  destruct (run_value_after t target_letters o r c Hrun)
    as [(q1_row & Hcmp & Hafter)|[Hnone Hv]].
  - split.
    + intros q1_val q2_val (q1_row' & Hcmp' & Hwd & -> & Hread & Hch).
      rewrite (compared_row_unique _ _ _ _ _ Hcmp Hcmp') in Hch |- *.
      destruct Hafter as [(q2_val' & Hread' & _ & _ & Hv)|[Hnot _]].
      * by assert (q2_val' = q2_val) as <- by congruence.
      * by destruct (Hnot q2_val).
    + intros Hnot.
      destruct Hafter as [(q2_val & Hread & Hch & Hwd & _)|[_ Hv]]; [|done].
      exfalso. eapply Hnot. exists q1_row.
      split_and!; [exact Hcmp|exact Hwd|reflexivity|exact Hread|exact Hch].
  - split; [|done]. intros q1_val q2_val (q1_row & Hcmp & _).
    by destruct (Hnone q1_row).
Qed.

(** C9, as the code has it. A run that succeeds leaves the two DataFrames
    as they were, and it writes into the worksheet of the Second workbook,
    which is the sheet it saves. For every cell of that sheet: its value is
    the rich text of the word diff of [q1_val] and [q2_val] when the cell is
    one the run rewrites (its row, from 2 to the last row of the sheet, has
    its key in the baseline index, a selected letter of [WORD_DIFF_COLUMNS]
    names its column, and the trimmed text [q2_val] it held is Changed
    against [q1_val], the value of the baseline row under the header of the
    column); its value is the one it had when it is no such cell; and its
    fill is the one it had or one of the changed, cleared and new-row
    fills. *)
Theorem run_keeps_values (t t' : Loaded) (target_letters : list string)
    (o : Outcome)
    (Hrun : run_loaded t target_letters = Ok (t', o)) :
  loaded_df_q1 t' = loaded_df_q1 t ∧
  loaded_df_q2 t' = loaded_df_q2 t ∧
  loaded_ws t' = saved o ∧
  ∀ r c,
    (∀ q1_val q2_val,
       rewritten_cell t target_letters o r c q1_val q2_val →
       value (ws_cell (loaded_ws t') r c) = VRich (word_diff q1_val q2_val)) ∧
    ((∀ q1_val q2_val, ¬ rewritten_cell t target_letters o r c q1_val q2_val) →
     value (ws_cell (loaded_ws t') r c) = value (ws_cell (loaded_ws t) r c)) ∧
    (fill (ws_cell (loaded_ws t') r c) = fill (ws_cell (loaded_ws t) r c) ∨
     fill (ws_cell (loaded_ws t') r c) = changed_fill ∨
     fill (ws_cell (loaded_ws t') r c) = cleared_fill ∨
     fill (ws_cell (loaded_ws t') r c) = newrow_fill).
Proof.
  revert Hrun. unfold run_loaded.
  destruct (highlight_q2_changes _ _ _ _) as [o'|e] eqn:Hrun; [|done].
  intros [= <- <-]. cbn [loaded_df_q1 loaded_df_q2 loaded_ws].
  split_and!; [done..|]. intros r c.
  destruct (run_values t target_letters o' r c Hrun) as [Hyes Hno].
  split_and!; [exact Hyes|exact Hno|].
  apply (run_fill_after _ _ _ _ _ Hrun).
Qed.

Lemma run_keeps_values_witness :
  let t := {| loaded_df_q1 := q1_O; loaded_df_q2 := q2_O; loaded_ws := ws_O |} in
  ∃ t' o, run_loaded t ["O"] = Ok (t', o) ∧
          loaded_df_q1 t' = q1_O ∧
          value (ws_cell (loaded_ws t') 2 15)
          = VRich (word_diff "Alpha Beta" "Alpha Gamma").
Proof.
  intros t.
  assert (∃ t' o, run_loaded t ["O"] = Ok (t', o)) as (t' & o & Hrun)
    by (eexists _, _; vm_compute; reflexivity).
  exists t', o. split; [exact Hrun|].
  destruct (run_keeps_values t t' ["O"] o Hrun) as (Hq1 & _ & _ & Hcells).
  split; [exact Hq1|]. apply (Hcells 2%nat 15%nat).
  assert (o = {| saved := saved o; key_header_q1 := "OB Main ID";
                 key_header_q2 := "OB Main ID" |}) as ->.
  { revert Hrun. vm_compute. by intros [= _ <-]. }
  exists (series [("OB Main ID", "1001"); ("Status", "Alpha Beta")]).
  split_and!.
  - split; [vm_compute; split; repeat constructor|].
    eexists. split; [reflexivity|]. vm_compute. reflexivity.
  - exists "O". split_and!; [apply list_elem_of_here|by vm_compute|reflexivity].
  - vm_compute. reflexivity.
  - vm_compute. reflexivity.
  - vm_compute. reflexivity.
Defined.
